(** * The OpenSSL binding layer of [cryptography]: registry, cipher and
      digest contexts

    A shallow embedding of [cryptography/bindings/openssl/backend.py] and
    [cryptography/primitives/block/modes.py].

    The native library ([self.lib]) is an opaque collaborator: it is a
    record of transition functions over an abstract native world.  Every
    Python method becomes a program in a state-and-exception monad whose
    state holds the cipher registry, the native world and the log of the
    calls made through [ffi] and [lib]. *)

From Stdlib Require Import ZArith String Ascii List Lia DecimalString.
From Stdlib.Strings Require Import Byte.
From stdpp Require Import base gmap strings list.

Open Scope Z_scope.

(** ** Python values used by the binding *)

Abbreviation bytes := (list byte).

(** A C pointer as cffi hands it back; [ffi.NULL] is the null address. *)
Definition ptr := Z.
Definition NULL : ptr := 0.

(** What is passed for the [iv] parameter of the init calls: either
    [ffi.NULL] or a Python byte string. *)
Inductive CharArg :=
| ArgNULL
| ArgBytes (b : bytes).

Inductive Exn :=
| KeyError
| ValueError
| AssertionError
| AttributeError
| UnicodeEncodeError.

#[global] Instance Exn_eq_dec : EqDecision Exn.
Proof. solve_decision. Defined.

Inductive Result (A : Type) :=
| Ok (a : A)
| Raise (e : Exn).
Arguments Ok {A} a.
Arguments Raise {A} e.

(** [b[:stop]] on a sequence, with Python's treatment of a negative or
    too large [stop]. *)
Definition slice_to {A} (l : list A) (stop : Z) : list A :=
  let n := Z.of_nat (length l) in
  let stop' := if stop <? 0 then Z.max (stop + n) 0 else Z.min stop n in
  firstn (Z.to_nat stop') l.

(** [ffi.new("unsigned char[]", n)]: [n] zero bytes. *)
Definition zeroed (n : Z) : bytes := repeat x00 (Z.to_nat n).

(** The bytes of [buf] as Python sees them after the library wrote
    [written] at its start.  This is the program only when [written] is
    no longer than [buf]: a library that writes past the end of the
    array corrupts memory, and the cut made here stands for nothing the
    program does. *)
Definition store (buf written : bytes) : bytes :=
  firstn (length buf) (written ++ skipn (length written) buf).

(** [str.lower()] on the characters a [string] holds. *)
Definition lower_char (c : ascii) : ascii :=
  let n := N_of_ascii c in
  if ((65 <=? n) && (n <=? 90))%N then ascii_of_N (n + 32) else c.

Fixpoint lower (s : string) : string :=
  match s with
  | EmptyString => EmptyString
  | String c r => String (lower_char c) (lower r)
  end.

(** [s.encode("ascii")]: fails on any character outside 0..127. *)
Fixpoint encode_ascii (s : string) : Result bytes :=
  match s with
  | EmptyString => Ok []
  | String c r =>
      if (N_of_ascii c <? 128)%N then
        match encode_ascii r with
        | Ok bs => Ok (byte_of_ascii c :: bs)
        | Raise e => Raise e
        end
      else Raise UnicodeEncodeError
  end.

(** [str(n)] for an integer. *)
Definition str_of_int (n : Z) : string := NilZero.string_of_int (Z.to_int n).

(** ** Algorithm and mode descriptors *)

(** The classes [backend.py] imports from [primitives.block.ciphers] and
    [primitives.block.modes]; [type(cipher)] and [type(mode)] range over
    them. *)
Inductive CipherCls := AES | Camellia | TripleDES.
Inductive ModeCls := CBC | CTR | ECB | OFB | CFB.

#[global] Instance CipherCls_eq_dec : EqDecision CipherCls.
Proof. solve_decision. Defined.
#[global] Instance ModeCls_eq_dec : EqDecision ModeCls.
Proof. solve_decision. Defined.

Definition CipherCls_to_nat (c : CipherCls) : nat :=
  match c with AES => 0 | Camellia => 1 | TripleDES => 2 end%nat.
Definition CipherCls_of_nat (n : nat) : CipherCls :=
  match n with O => AES | 1%nat => Camellia | _ => TripleDES end.
#[global] Instance CipherCls_countable : Countable CipherCls.
Proof.
  apply (inj_countable' CipherCls_to_nat CipherCls_of_nat).
  by intros [].
Defined.

Definition ModeCls_to_nat (m : ModeCls) : nat :=
  match m with CBC => 0 | CTR => 1 | ECB => 2 | OFB => 3 | CFB => 4 end%nat.
Definition ModeCls_of_nat (n : nat) : ModeCls :=
  match n with
  | O => CBC | 1%nat => CTR | 2%nat => ECB | 3%nat => OFB | _ => CFB
  end.
#[global] Instance ModeCls_countable : Countable ModeCls.
Proof.
  apply (inj_countable' ModeCls_to_nat ModeCls_of_nat).
  by intros [].
Defined.

(** A cipher object: its class and the [key] attribute. *)
Record Cipher := {
  cipher_cls : CipherCls;
  key : bytes
}.

(** Modelled from the spec: the [name] class attribute of the cipher
    classes, defined in [primitives/block/ciphers.py], which is not among
    the sources.  The spec calls the algorithms AES, Camellia and
    TripleDES, with ["AES"] as the example of a name. *)
Definition cipher_name (c : CipherCls) : string :=
  match c with
  | AES => "AES"
  | Camellia => "Camellia"
  | TripleDES => "TripleDES"
  end.

(** Modelled from the spec: the [key_size] attribute of a cipher object
    ([ciphers.py] is not among the sources): the key length in bits, so
    that a 16-byte key has size 128. *)
Definition key_size (c : Cipher) : Z := Z.of_nat (length (key c)) * 8.

(** The two marker interfaces of [primitives.interfaces] the backend
    tests a mode against. *)
Inductive Interface :=
| ModeWithInitializationVector
| ModeWithNonce.

(** A mode object as the backend observes it: its class, the outcome of
    [isinstance(mode, interfaces.X)] for the two interfaces, and the two
    attributes the backend may read ([None] when the object has no such
    attribute). *)
Record Mode := {
  mode_cls : ModeCls;
  isinstance : Interface -> bool;
  initialization_vector : option bytes;
  nonce : option bytes
}.

(** The [name] class attribute of a mode class.  [CBC] and [ECB] are
    those of [modes.py].  Modelled from the spec: the names of [CTR],
    [OFB] and [CFB], whose classes are imported by the backend but are
    not defined in the [modes.py] among the sources; the spec spells the
    modes CTR, OFB and CFB. *)
Definition mode_name (m : ModeCls) : string :=
  match m with
  | CBC => "CBC"
  | ECB => "ECB"
  | CTR => "CTR"
  | OFB => "OFB"
  | CFB => "CFB"
  end.

(** ** [str.format] on the adapter templates *)

(** A replacement field [{cipher.name}], [{cipher.key_size}] or
    [{mode.name}], the three the backend uses.  [str.format] reads any
    attribute a field names; here every other field raises, so a result
    [Ok] is what Python returns, and a result [Raise] stands for Python
    only when the field names no attribute of the object. *)
Definition format_field (field : string) (cipher : Cipher) (mode : Mode)
  : Result string :=
  if decide (field = "cipher.name") then Ok (cipher_name (cipher_cls cipher))
  else if decide (field = "cipher.key_size") then Ok (str_of_int (key_size cipher))
  else if decide (field = "mode.name") then Ok (mode_name (mode_cls mode))
  else if String.prefix "cipher." field || String.prefix "mode." field
       then Raise AttributeError
  else Raise KeyError.

(** [fmt.format(cipher=cipher, mode=mode)] for templates made of literal
    text and replacement fields; [field] is the text of the field being
    read, if any.  Brace escapes, conversions and format specifications
    do not occur in the templates of the backend and are not covered:
    on a template that has one the result here is [Raise], whatever
    Python returns. *)
Fixpoint format_go (fmt : string) (field : option string)
    (cipher : Cipher) (mode : Mode) : Result string :=
  match fmt, field with
  | EmptyString, None => Ok EmptyString
  | EmptyString, Some _ => Raise ValueError
  | String c rest, None =>
      if decide (c = "{"%char) then format_go rest (Some EmptyString) cipher mode
      else if decide (c = "}"%char) then Raise ValueError
      else match format_go rest None cipher mode with
           | Ok r => Ok (String c r)
           | Raise e => Raise e
           end
  | String c rest, Some acc =>
      if decide (c = "}"%char) then
        match format_field acc cipher mode with
        | Ok v =>
            match format_go rest None cipher mode with
            | Ok r => Ok (v +:+ r)
            | Raise e => Raise e
            end
        | Raise e => Raise e
        end
      else format_go rest (Some (acc +:+ String c EmptyString)) cipher mode
  end.

Definition str_format (fmt : string) (cipher : Cipher) (mode : Mode)
  : Result string :=
  format_go fmt None cipher mode.


(** ** The native library *)

(** Destructors handed to [ffi.gc]. *)
Inductive Destructor :=
| EVP_CIPHER_CTX_free
| EVP_MD_CTX_destroy.

(** [self.lib]: the functions of libcrypto the binding calls, over an
    abstract native world [W].  A function that fills an output array
    returns the bytes it wrote; the functions with an [int *outl]
    parameter return the value they stored there. *)
Record Lib (W : Type) := {
  EVP_get_cipherbyname : W -> bytes -> ptr;
  EVP_CIPHER_CTX_new : W -> ptr * W;
  EVP_EncryptInit_ex : W -> ptr -> ptr -> ptr -> bytes -> CharArg -> Z * W;
  EVP_DecryptInit_ex : W -> ptr -> ptr -> ptr -> bytes -> CharArg -> Z * W;
  EVP_CIPHER_CTX_set_padding : W -> ptr -> Z -> Z * W;
  EVP_CIPHER_CTX_block_size : W -> ptr -> Z;
  EVP_EncryptUpdate : W -> ptr -> bytes -> Z -> (Z * Z * bytes) * W;
  EVP_DecryptUpdate : W -> ptr -> bytes -> Z -> (Z * Z * bytes) * W;
  EVP_EncryptFinal_ex : W -> ptr -> (Z * Z * bytes) * W;
  EVP_DecryptFinal_ex : W -> ptr -> (Z * Z * bytes) * W;
  EVP_CIPHER_CTX_cleanup : W -> ptr -> Z * W;
  EVP_get_digestbyname : W -> bytes -> ptr;
  EVP_MD_CTX_create : W -> ptr * W;
  EVP_DigestInit_ex : W -> ptr -> ptr -> ptr -> Z * W;
  EVP_DigestUpdate : W -> ptr -> bytes -> Z -> Z * W;
  EVP_DigestFinal_ex : W -> ptr -> ptr -> (Z * bytes) * W;
  EVP_MD_CTX_cleanup : W -> ptr -> Z * W;
  EVP_MD_CTX_copy_ex : W -> ptr -> ptr -> Z * W
}.
Arguments EVP_get_cipherbyname {W}.
Arguments EVP_CIPHER_CTX_new {W}.
Arguments EVP_EncryptInit_ex {W}.
Arguments EVP_DecryptInit_ex {W}.
Arguments EVP_CIPHER_CTX_set_padding {W}.
Arguments EVP_CIPHER_CTX_block_size {W}.
Arguments EVP_EncryptUpdate {W}.
Arguments EVP_DecryptUpdate {W}.
Arguments EVP_EncryptFinal_ex {W}.
Arguments EVP_DecryptFinal_ex {W}.
Arguments EVP_CIPHER_CTX_cleanup {W}.
Arguments EVP_get_digestbyname {W}.
Arguments EVP_MD_CTX_create {W}.
Arguments EVP_DigestInit_ex {W}.
Arguments EVP_DigestUpdate {W}.
Arguments EVP_DigestFinal_ex {W}.
Arguments EVP_MD_CTX_cleanup {W}.
Arguments EVP_MD_CTX_copy_ex {W}.

(** The calls a method makes through [ffi] and [lib], with their
    arguments, in program order. *)
Module Call.
Inductive t :=
| ffi_new_uchar_array (n : Z)
| ffi_new_int
| ffi_gc (p : ptr) (d : Destructor)
| get_cipherbyname (name : bytes)
| CIPHER_CTX_new
| EncryptInit_ex (ctx evp impl : ptr) (key : bytes) (iv : CharArg)
| DecryptInit_ex (ctx evp impl : ptr) (key : bytes) (iv : CharArg)
| CIPHER_CTX_set_padding (ctx : ptr) (pad : Z)
| CIPHER_CTX_block_size (ctx : ptr)
| EncryptUpdate (ctx : ptr) (data : bytes) (inl : Z)
| DecryptUpdate (ctx : ptr) (data : bytes) (inl : Z)
| EncryptFinal_ex (ctx : ptr)
| DecryptFinal_ex (ctx : ptr)
| CIPHER_CTX_cleanup (ctx : ptr)
| get_digestbyname (name : bytes)
| MD_CTX_create
| DigestInit_ex (ctx md impl : ptr)
| DigestUpdate (ctx : ptr) (data : bytes) (cnt : Z)
| DigestFinal_ex (ctx : ptr) (s : ptr)
| MD_CTX_cleanup (ctx : ptr)
| MD_CTX_copy_ex (out inp : ptr).
End Call.

(** ** The registry and the monad of the binding *)

(** [GetCipherByName(fmt)]: the adapter objects stored in the registry. *)
Inductive Adapter :=
| GetCipherByName (fmt : string).

Definition _fmt (self : Adapter) : string :=
  match self with GetCipherByName fmt => fmt end.

Record State (W : Type) := {
  _cipher_registry : gmap (CipherCls * ModeCls) Adapter;
  world : W;
  calls : list Call.t
}.
Arguments _cipher_registry {W}.
Arguments world {W}.
Arguments calls {W}.

Definition M (W A : Type) : Type := State W -> Result A * State W.

#[global] Instance M_ret {W : Type} : MRet (M W) :=
  fun A a s => (Ok a, s).

#[global] Instance M_bind {W : Type} : MBind (M W) :=
  fun A B f m s =>
    match m s with
    | (Ok a, s') => f a s'
    | (Raise e, s') => (Raise e, s')
    end.

Definition raise {W A : Type} (e : Exn) : M W A := fun s => (Raise e, s).

(** The [assert] statement. *)
Definition assert {W : Type} (b : bool) : M W unit :=
  if b then mret tt else raise AssertionError.

(** [try: body except e: handler]. *)
Definition try_except {W A : Type} (body : M W A) (e : Exn) (handler : M W A) : M W A :=
  fun s =>
    match body s with
    | (Raise e', s') => if decide (e' = e) then handler s' else (Raise e', s')
    | r => r
    end.

Definition get_registry {W : Type} : M W (gmap (CipherCls * ModeCls) Adapter) :=
  fun s => (Ok (_cipher_registry s), s).

Definition set_registry {W : Type} (r : gmap (CipherCls * ModeCls) Adapter) : M W unit :=
  fun s => (Ok tt, {| _cipher_registry := r; world := world s; calls := calls s |}).

(** A call that may change the native world. *)
Definition native {W A : Type} (c : Call.t) (f : W -> A * W) : M W A :=
  fun s =>
    let '(a, w) := f (world s) in
    (Ok a, {| _cipher_registry := _cipher_registry s; world := w;
              calls := calls s ++ [c] |}).

(** A call that only reads the native world. *)
Definition query {W A : Type} (c : Call.t) (f : W -> A) : M W A :=
  native c (fun w => (f w, w)).

(** A call into [ffi] alone. *)
Definition local {W A : Type} (c : Call.t) (r : Result A) : M W A :=
  fun s =>
    (r, {| _cipher_registry := _cipher_registry s; world := world s;
           calls := calls s ++ [c] |}).

(** [ffi.new("unsigned char[]", n)]; a negative length is refused.  A
    length beyond the index range ([OverflowError]) or beyond the
    memory at hand ([MemoryError]) is refused by cffi too; neither is
    represented here. *)
Definition ffi_new_uchar_array {W : Type} (n : Z) : M W bytes :=
  local (Call.ffi_new_uchar_array n)
        (if n <? 0 then Raise ValueError else Ok (zeroed n)).

(** [ffi.new("int *")]. *)
Definition ffi_new_int {W : Type} : M W Z := local Call.ffi_new_int (Ok 0).

(** [ffi.gc(p, destructor)]: the same pointer, owned by the collector. *)
Definition ffi_gc {W : Type} (p : ptr) (d : Destructor) : M W ptr :=
  local (Call.ffi_gc p d) (Ok p).

(** [for x in xs: body]. *)
Fixpoint for_each {W A : Type} (xs : list A) (body : A -> M W unit) : M W unit :=
  match xs with
  | [] => mret tt
  | x :: rest => body x ≫= fun _ => for_each rest body
  end.

(** [itertools.product(xs, ys)]. *)
Definition product {A B} (xs : list A) (ys : list B) : list (A * B) :=
  list_prod xs ys.

(** ** [backend.py] *)

(** A hash class or hash object: only its [name] attribute is read. *)
Record Hash := { hash_name : string }.

(** [len(data)]. *)
Definition len (data : bytes) : Z := Z.of_nat (length data).

(** [GetCipherByName.__call__(self, backend, cipher, mode)]; of [backend]
    only [backend.lib] is used. *)
Definition GetCipherByName_call {W : Type} (backend : Lib W) (self : Adapter)
    (cipher : Cipher) (mode : Mode) : M W ptr :=
  fun s =>
    match str_format (_fmt self) cipher mode with
    | Raise e => (Raise e, s)
    | Ok formatted =>
        let cipher_name := lower formatted in
        match encode_ascii cipher_name with
        | Raise e => (Raise e, s)
        | Ok name =>
            query (Call.get_cipherbyname name)
                  (fun w => EVP_get_cipherbyname backend w name) s
        end
    end.

(** *** class [Ciphers] *)

Module Ciphers.
Section WithLib.
Context {W : Type} (lib : Lib W).

(** [self._cipher_registry[type(cipher), type(mode)]]. *)
Definition registry_getitem (cipher : Cipher) (mode : Mode) : M W Adapter :=
  r ← get_registry;
  match r !! (cipher_cls cipher, mode_cls mode) with
  | Some adapter => mret adapter
  | None => raise KeyError
  end.

(** [Ciphers.supported]. *)
Definition supported (cipher : Cipher) (mode : Mode) : M W bool :=
  found ← try_except (adapter ← registry_getitem cipher mode; mret (Some adapter))
            KeyError (mret None);
  match found with
  | None => mret false
  | Some adapter =>
      evp_cipher ← GetCipherByName_call lib adapter cipher mode;
      mret (negb (NULL =? evp_cipher))
  end.

(** [Ciphers.register_cipher_adapter]. *)
Definition register_cipher_adapter (cipher_cls : CipherCls) (mode_cls : ModeCls)
    (adapter : Adapter) : M W unit :=
  r ← get_registry;
  if decide (is_Some (r !! (cipher_cls, mode_cls))) then raise ValueError
  else set_registry (<[(cipher_cls, mode_cls) := adapter]> r).

(** [Ciphers._register_default_ciphers]. *)
Definition _register_default_ciphers : M W unit :=
  for_each (product [AES; Camellia] [CBC; CTR; ECB; OFB; CFB])
    (fun '(cipher_cls, mode_cls) =>
       register_cipher_adapter cipher_cls mode_cls
         (GetCipherByName "{cipher.name}-{cipher.key_size}-{mode.name}"));;
  for_each [CBC; CFB; OFB]
    (fun mode_cls =>
       register_cipher_adapter TripleDES mode_cls
         (GetCipherByName "des-ede3-{mode.name}")).

(** [Ciphers.__init__]: an empty registry, then the defaults. *)
Definition __init__ : M W unit :=
  set_registry ∅;;
  _register_default_ciphers.

(** The attribute read [mode.initialization_vector] or [mode.nonce]. *)
Definition getattr (a : option bytes) : M W CharArg :=
  match a with
  | Some v => mret (ArgBytes v)
  | None => raise AttributeError
  end.

(** [Ciphers._create_ctx]. *)
Definition _create_ctx (cipher : Cipher) (mode : Mode)
  : M W (ptr * ptr * CharArg) :=
  ctx ← native Call.CIPHER_CTX_new (EVP_CIPHER_CTX_new lib);
  ctx ← ffi_gc ctx EVP_CIPHER_CTX_free;
  adapter ← registry_getitem cipher mode;
  evp_cipher ← GetCipherByName_call lib adapter cipher mode;
  assert (negb (evp_cipher =? NULL));;
  iv_nonce ←
    (if isinstance mode ModeWithInitializationVector then
       getattr (initialization_vector mode)
     else if isinstance mode ModeWithNonce then
       getattr (nonce mode)
     else mret ArgNULL);
  mret (ctx, evp_cipher, iv_nonce).

(** [Ciphers.create_encrypt_ctx]. *)
Definition create_encrypt_ctx (cipher : Cipher) (mode : Mode) : M W ptr :=
  '(ctx, evp, iv_nonce) ← _create_ctx cipher mode;
  res ← native (Call.EncryptInit_ex ctx evp NULL (key cipher) iv_nonce)
        (fun w => EVP_EncryptInit_ex lib w ctx evp NULL (key cipher) iv_nonce);
  assert (negb (res =? 0));;
  native (Call.CIPHER_CTX_set_padding ctx 0)
    (fun w => EVP_CIPHER_CTX_set_padding lib w ctx 0);;
  mret ctx.

(** [Ciphers.create_decrypt_ctx]. *)
Definition create_decrypt_ctx (cipher : Cipher) (mode : Mode) : M W ptr :=
  '(ctx, evp, iv_nonce) ← _create_ctx cipher mode;
  res ← native (Call.DecryptInit_ex ctx evp NULL (key cipher) iv_nonce)
        (fun w => EVP_DecryptInit_ex lib w ctx evp NULL (key cipher) iv_nonce);
  assert (negb (res =? 0));;
  native (Call.CIPHER_CTX_set_padding ctx 0)
    (fun w => EVP_CIPHER_CTX_set_padding lib w ctx 0);;
  mret ctx.

(** [Ciphers.update_encrypt_ctx]. *)
Definition update_encrypt_ctx (ctx : ptr) (data : bytes) : M W bytes :=
  block_size ← query (Call.CIPHER_CTX_block_size ctx)
               (fun w => EVP_CIPHER_CTX_block_size lib w ctx);
  buf ← ffi_new_uchar_array (len data + block_size - 1);
  _ ← ffi_new_int;
  '(res, outlen, written) ←
    native (Call.EncryptUpdate ctx data (len data))
      (fun w => EVP_EncryptUpdate lib w ctx data (len data));
  assert (negb (res =? 0));;
  mret (slice_to (store buf written) outlen).

(** [Ciphers.update_decrypt_ctx]. *)
Definition update_decrypt_ctx (ctx : ptr) (data : bytes) : M W bytes :=
  block_size ← query (Call.CIPHER_CTX_block_size ctx)
               (fun w => EVP_CIPHER_CTX_block_size lib w ctx);
  buf ← ffi_new_uchar_array (len data + block_size - 1);
  _ ← ffi_new_int;
  '(res, outlen, written) ←
    native (Call.DecryptUpdate ctx data (len data))
      (fun w => EVP_DecryptUpdate lib w ctx data (len data));
  assert (negb (res =? 0));;
  mret (slice_to (store buf written) outlen).

(** [Ciphers.finalize_encrypt_ctx]. *)
Definition finalize_encrypt_ctx (ctx : ptr) : M W bytes :=
  block_size ← query (Call.CIPHER_CTX_block_size ctx)
               (fun w => EVP_CIPHER_CTX_block_size lib w ctx);
  buf ← ffi_new_uchar_array block_size;
  _ ← ffi_new_int;
  '(res, outlen, written) ←
    native (Call.EncryptFinal_ex ctx) (fun w => EVP_EncryptFinal_ex lib w ctx);
  assert (negb (res =? 0));;
  res ← native (Call.CIPHER_CTX_cleanup ctx)
        (fun w => EVP_CIPHER_CTX_cleanup lib w ctx);
  assert (res =? 1);;
  mret (slice_to (store buf written) outlen).

(** [Ciphers.finalize_decrypt_ctx]. *)
Definition finalize_decrypt_ctx (ctx : ptr) : M W bytes :=
  block_size ← query (Call.CIPHER_CTX_block_size ctx)
               (fun w => EVP_CIPHER_CTX_block_size lib w ctx);
  buf ← ffi_new_uchar_array block_size;
  _ ← ffi_new_int;
  '(res, outlen, written) ←
    native (Call.DecryptFinal_ex ctx) (fun w => EVP_DecryptFinal_ex lib w ctx);
  assert (negb (res =? 0));;
  res ← native (Call.CIPHER_CTX_cleanup ctx)
        (fun w => EVP_CIPHER_CTX_cleanup lib w ctx);
  assert (res =? 1);;
  mret (slice_to (store buf written) outlen).

End WithLib.
End Ciphers.

(** *** class [Hashes] *)

Module Hashes.
Section WithLib.
Context {W : Type} (lib : Lib W).

(** The lookup [EVP_get_digestbyname(h.name.encode("ascii"))]. *)
Definition get_digestbyname (h : Hash) : M W ptr :=
  fun s =>
    match encode_ascii (hash_name h) with
    | Raise e => (Raise e, s)
    | Ok name =>
        query (Call.get_digestbyname name)
              (fun w => EVP_get_digestbyname lib w name) s
    end.

(** [Hashes.supported]. *)
Definition supported (hash_cls : Hash) : M W bool :=
  evp_md ← get_digestbyname hash_cls;
  mret (negb (NULL =? evp_md)).

(** [Hashes.create_ctx]. *)
Definition create_ctx (hashobject : Hash) : M W ptr :=
  ctx ← native Call.MD_CTX_create (EVP_MD_CTX_create lib);
  ctx ← ffi_gc ctx EVP_MD_CTX_destroy;
  evp_md ← get_digestbyname hashobject;
  assert (negb (evp_md =? NULL));;
  res ← native (Call.DigestInit_ex ctx evp_md NULL)
        (fun w => EVP_DigestInit_ex lib w ctx evp_md NULL);
  assert (negb (res =? 0));;
  mret ctx.

(** [Hashes.update_ctx]. *)
Definition update_ctx (ctx : ptr) (data : bytes) : M W unit :=
  res ← native (Call.DigestUpdate ctx data (len data))
        (fun w => EVP_DigestUpdate lib w ctx data (len data));
  assert (negb (res =? 0)).

(** [Hashes.finalize_ctx]. *)
Definition finalize_ctx (ctx : ptr) (digest_size : Z) : M W bytes :=
  buf ← ffi_new_uchar_array digest_size;
  '(res, written) ←
    native (Call.DigestFinal_ex ctx NULL)
      (fun w => EVP_DigestFinal_ex lib w ctx NULL);
  assert (negb (res =? 0));;
  res ← native (Call.MD_CTX_cleanup ctx)
        (fun w => EVP_MD_CTX_cleanup lib w ctx);
  assert (res =? 1);;
  mret (slice_to (store buf written) digest_size).

(** [Hashes.copy_ctx]. *)
Definition copy_ctx (ctx : ptr) : M W ptr :=
  copied_ctx ← native Call.MD_CTX_create (EVP_MD_CTX_create lib);
  copied_ctx ← ffi_gc copied_ctx EVP_MD_CTX_destroy;
  res ← native (Call.MD_CTX_copy_ex copied_ctx ctx)
        (fun w => EVP_MD_CTX_copy_ex lib w copied_ctx ctx);
  assert (negb (res =? 0));;
  mret copied_ctx.

End WithLib.
End Hashes.

(** The encrypting and the decrypting variant of a method, side by side. *)
Inductive Direction := Encrypt | Decrypt.

Section Directions.
Context {W : Type} (lib : Lib W).

Definition create_ctx_for (d : Direction) : Cipher -> Mode -> M W ptr :=
  match d with
  | Encrypt => Ciphers.create_encrypt_ctx lib
  | Decrypt => Ciphers.create_decrypt_ctx lib
  end.

Definition update_ctx_for (d : Direction) : ptr -> bytes -> M W bytes :=
  match d with
  | Encrypt => Ciphers.update_encrypt_ctx lib
  | Decrypt => Ciphers.update_decrypt_ctx lib
  end.

Definition finalize_ctx_for (d : Direction) : ptr -> M W bytes :=
  match d with
  | Encrypt => Ciphers.finalize_encrypt_ctx lib
  | Decrypt => Ciphers.finalize_decrypt_ctx lib
  end.

Definition EVP_Init_ex (d : Direction) :=
  match d with
  | Encrypt => EVP_EncryptInit_ex lib
  | Decrypt => EVP_DecryptInit_ex lib
  end.

Definition EVP_Update (d : Direction) :=
  match d with
  | Encrypt => EVP_EncryptUpdate lib
  | Decrypt => EVP_DecryptUpdate lib
  end.

Definition EVP_Final_ex (d : Direction) :=
  match d with
  | Encrypt => EVP_EncryptFinal_ex lib
  | Decrypt => EVP_DecryptFinal_ex lib
  end.
End Directions.

Definition Call_Init_ex (d : Direction) :=
  match d with
  | Encrypt => Call.EncryptInit_ex
  | Decrypt => Call.DecryptInit_ex
  end.

Definition Call_Update (d : Direction) :=
  match d with
  | Encrypt => Call.EncryptUpdate
  | Decrypt => Call.DecryptUpdate
  end.

Definition Call_Final_ex (d : Direction) :=
  match d with
  | Encrypt => Call.EncryptFinal_ex
  | Decrypt => Call.DecryptFinal_ex
  end.

(** ** [modes.py] *)

Module modes.

(** The [api] argument of [get_iv_or_nonce]: an object answering
    [get_null_for_ecb()] with a value of its own choosing. *)
Record Api (V : Type) := { get_null_for_ecb : unit -> V }.
Arguments get_null_for_ecb {V}.

(** The objects of the two classes: [CBC(initialization_vector)] and
    [ECB()]. *)
Inductive obj :=
| new_CBC (initialization_vector : bytes)
| new_ECB.

Definition type (self : obj) : ModeCls :=
  match self with
  | new_CBC _ => CBC
  | new_ECB => ECB
  end.

Definition name (self : obj) : string :=
  match self with
  | new_CBC _ => "CBC"
  | new_ECB => "ECB"
  end.

(** [CBC.get_iv_or_nonce] and [ECB.get_iv_or_nonce]. *)
Definition get_iv_or_nonce {V} (self : obj) (api : Api V) : bytes + V :=
  match self with
  | new_CBC initialization_vector => inl initialization_vector
  | new_ECB => inr (get_null_for_ecb api tt)
  end.

(** The object as the backend observes it, given how its class answers
    the [isinstance] tests. *)
Definition as_mode (inst : Interface -> bool) (self : obj) : Mode :=
  {| mode_cls := type self;
     isinstance := inst;
     initialization_vector :=
       match self with
       | new_CBC iv => Some iv
       | new_ECB => None
       end;
     nonce := None |}.

End modes.

(** ** class [Backend] *)

Module Backend.

(** What a binding module ([asn1.py], [evp.py], ...) declares.  The
    modules themselves are not among the sources: their four strings are
    whatever the import delivers. *)
Record Binding := {
  TYPES : string;
  MACROS : string;
  FUNCTIONS : string;
  INCLUDES : string
}.

(** The class attribute [_modules]. *)
Definition _modules : list string :=
  ["asn1"; "bignum"; "bio"; "conf"; "crypto"; "dh"; "dsa"; "engine"; "err";
   "evp"; "hmac"; "nid"; "opensslv"; "pem"; "pkcs7"; "pkcs12"; "rand"; "rsa";
   "ssl"; "x509"; "x509name"; "x509v3"].

(** What [__init__] asks of [self.ffi] and of the freshly verified
    [self.lib], in program order. *)
Inductive Step :=
| cdef (source : string)
| verify (source : string) (libraries : list string)
| OpenSSL_add_all_algorithms
| SSL_load_error_strings.

(** The steps taken so far and the three lists [__init__] fills. *)
Record Loading := {
  steps : list Step;
  includes : list string;
  functions : list string;
  macros : list string
}.

(** The first loop of [__init__]: import each module, declare its types
    and remember its macros, functions and includes.  [import] stands for
    [__import__] followed by the [sys.modules] lookup; a module that
    cannot be imported ends the loop with [ImportError]. *)
Fixpoint load (import : string -> option Binding) (names : list string)
    (acc : Loading) : Loading + string * Loading :=
  match names with
  | [] => inl acc
  | name :: rest =>
      match import ("cryptography.bindings.openssl." +:+ name) with
      | None => inr (name, acc)
      | Some module =>
          load import rest
            {| steps := steps acc ++ [cdef (TYPES module)];
               macros := macros acc ++ [MACROS module];
               functions := functions acc ++ [FUNCTIONS module];
               includes := includes acc ++ [INCLUDES module] |}
      end
  end.

(** [sep.join(l)]. *)
Fixpoint join (sep : string) (l : list string) : string :=
  match l with
  | [] => EmptyString
  | [x] => x
  | x :: rest => x +:+ sep +:+ join sep rest
  end.

Inductive Built (W : Type) :=
| ImportError (name : string) (done : list Step)
| Ready (done : list Step) (ciphers : Result unit * State W).
Arguments ImportError {W}.
Arguments Ready {W}.

(** [Backend.__init__]; [w] is the native world of the library that
    [ffi.verify] returns.  [Hashes(ffi, lib)] keeps no state of its own. *)
Definition __init__ {W : Type} (import : string -> option Binding) (w : W)
  : Built W :=
  match load import _modules
          {| steps := []; includes := []; functions := []; macros := [] |} with
  | inr (name, acc) => ImportError name (steps acc)
  | inl acc =>
      let declared :=
        steps acc ++ map cdef (functions acc) ++ map cdef (macros acc) in
      let source := join (String "010"%char EmptyString)
                      (includes acc ++ functions acc) in
      Ready (declared ++ [verify source ["crypto"; "ssl"];
                          OpenSSL_add_all_algorithms;
                          SSL_load_error_strings])
            (Ciphers.__init__
               {| _cipher_registry := ∅; world := w; calls := [] |})
  end.

(** [ffi.string(cdata)] on a [char] array: the bytes before the first
    NUL. *)
Fixpoint ffi_string (cdata : bytes) : bytes :=
  match cdata with
  | [] => []
  | b :: rest => if Byte.eqb b x00 then [] else b :: ffi_string rest
  end.

(** [b.decode("ascii")]; [None] stands for the [UnicodeDecodeError] raised
    on a byte outside 0..127. *)
Fixpoint decode_ascii (b : bytes) : option string :=
  match b with
  | [] => Some EmptyString
  | c :: rest =>
      if (Byte.to_N c <? 128)%N then
        match decode_ascii rest with
        | Some s => Some (String (ascii_of_byte c) s)
        | None => None
        end
      else None
  end.

(** [Backend.openssl_version_text], given the bytes at
    [lib.OPENSSL_VERSION_TEXT]. *)
Definition openssl_version_text (OPENSSL_VERSION_TEXT : bytes) : option string :=
  decode_ascii (ffi_string OPENSSL_VERSION_TEXT).

End Backend.

(** ** [vectors/__init__.py] *)

Module vectors.

(** [s.endswith("/")]. *)
Fixpoint endswith_sep (s : string) : bool :=
  match s with
  | EmptyString => false
  | String c EmptyString => bool_decide (c = "/"%char)
  | String _ r => endswith_sep r
  end.

(** One round of the loop of [os.path.join] (POSIX): an absolute
    component replaces what was joined so far, any other is appended,
    after a separator unless the path is empty or already ends in one. *)
Definition join_step (path b : string) : string :=
  if String.prefix "/" b then b
  else if bool_decide (path = EmptyString) || endswith_sep path then path +:+ b
  else path +:+ "/" +:+ b.

(** [os.path.join] applied to [a] and the components [p]. *)
Definition os_path_join (a : string) (p : list string) : string :=
  fold_left join_step p a.

(** [open_vector_file] applied to the arguments [args]: [base] is
    [os.path.dirname(__file__)] and [open_r path] is [open(path, "r")],
    [None] when it raises. *)
Definition open_vector_file {F : Type} (base : string)
    (open_r : string -> option F) (args : list string) : option F :=
  let filepath := [base] ++ args in
  match filepath with
  | a :: p => open_r (os_path_join a p)
  | [] => None
  end.

End vectors.

(** ** A sample native library

    A small engine used to run the methods on concrete inputs: block size
    4, the identity as block transform, complete blocks released as soon
    as they are filled, and an init call that refuses an empty key. *)
Module Sample.

Record World := {
  next_ptr : Z;
  pending : bytes;
  padding : Z;
  absorbed : bytes;
  released : list ptr
}.

Definition boot : World :=
  {| next_ptr := 16; pending := []; padding := 1; absorbed := [];
     released := [] |}.

Definition known (names : list string) (name : bytes) : bool :=
  existsb (fun n => String.eqb n (string_of_list_byte name)) names.

Definition take_blocks (all : bytes) : bytes * bytes :=
  let n := (length all / 4 * 4)%nat in
  (firstn n all, skipn n all).

Definition update (w : World) (data : bytes) : (Z * Z * bytes) * World :=
  let '(out, rest) := take_blocks (pending w ++ data) in
  ((1, Z.of_nat (length out), out),
   {| next_ptr := next_ptr w; pending := rest; padding := padding w;
      absorbed := absorbed w; released := released w |}).

Definition final (w : World) : (Z * Z * bytes) * World :=
  ((if decide (pending w = []) then 1 else 0, 0, []), w).

Definition init (w : World) (evp : ptr) (key : bytes) : Z * World :=
  (if (evp =? NULL) || (len key =? 0) then 0 else 1,
   {| next_ptr := next_ptr w; pending := []; padding := padding w;
      absorbed := absorbed w; released := released w |}).

Definition alloc (w : World) : ptr * World :=
  (next_ptr w,
   {| next_ptr := next_ptr w + 1; pending := pending w; padding := padding w;
      absorbed := absorbed w; released := released w |}).

Definition release (w : World) (ctx : ptr) : Z * World :=
  (1,
   {| next_ptr := next_ptr w; pending := pending w; padding := padding w;
      absorbed := absorbed w; released := ctx :: released w |}).

(** A four-byte digest: the length of the input, then its first three
    bytes. *)
Definition digest (data : bytes) : bytes :=
  match Byte.of_N (N.of_nat (length data) mod 256) with
  | Some b => b :: firstn 3 (data ++ [x00; x00; x00])
  | None => [x00; x00; x00; x00]
  end.

Definition lib : Lib World :=
  {| EVP_get_cipherbyname := fun _ name =>
       if known ["aes-128-cbc"; "aes-128-ctr"; "aes-256-ecb"; "des-ede3-cfb"] name
       then 7 else NULL;
     EVP_CIPHER_CTX_new := alloc;
     EVP_EncryptInit_ex := fun w _ evp _ key _ => init w evp key;
     EVP_DecryptInit_ex := fun w _ evp _ key _ => init w evp key;
     EVP_CIPHER_CTX_set_padding := fun w _ pad =>
       (1, {| next_ptr := next_ptr w; pending := pending w; padding := pad;
              absorbed := absorbed w; released := released w |});
     EVP_CIPHER_CTX_block_size := fun _ _ => 4;
     EVP_EncryptUpdate := fun w _ data _ => update w data;
     EVP_DecryptUpdate := fun w _ data _ => update w data;
     EVP_EncryptFinal_ex := fun w _ => final w;
     EVP_DecryptFinal_ex := fun w _ => final w;
     EVP_CIPHER_CTX_cleanup := release;
     EVP_get_digestbyname := fun _ name => if known ["sha1"] name then 9 else NULL;
     EVP_MD_CTX_create := alloc;
     EVP_DigestInit_ex := fun w _ md _ =>
       (if md =? NULL then 0 else 1,
        {| next_ptr := next_ptr w; pending := pending w; padding := padding w;
           absorbed := []; released := released w |});
     EVP_DigestUpdate := fun w _ data _ =>
       (1, {| next_ptr := next_ptr w; pending := pending w; padding := padding w;
              absorbed := absorbed w ++ data; released := released w |});
     EVP_DigestFinal_ex := fun w _ _ => ((1, digest (absorbed w)), w);
     EVP_MD_CTX_cleanup := release;
     EVP_MD_CTX_copy_ex := fun w _ _ => (1, w) |}.

(** The world of a started process once a lone byte has been fed. *)
Definition pending_one (b : byte) : World :=
  {| next_ptr := 16; pending := [b]; padding := 1; absorbed := [];
     released := [] |}.

(** A process in which nothing has been registered or called yet. *)
Definition fresh : State World :=
  {| _cipher_registry := ∅; world := boot; calls := [] |}.

Definition run {A} (m : M World A) (s : State World) : State World := snd (m s).

(** After [Ciphers.__init__]. *)
Definition started : State World := run Ciphers.__init__ fresh.

(** A started process that has hashed the letter [a] with context 16. *)
Definition hashing : State World :=
  run (Hashes.update_ctx lib 16 ["a"%byte])
      (run (Hashes.create_ctx lib {| hash_name := "sha1" |}) started).

Definition bare : Interface -> bool := fun _ => false.
Definition with_iv : Interface -> bool :=
  fun i => match i with ModeWithInitializationVector => true | _ => false end.
Definition with_nonce : Interface -> bool :=
  fun i => match i with ModeWithNonce => true | _ => false end.

Definition aes128 : Cipher := {| cipher_cls := AES; key := repeat x00 16 |}.
Definition cbc (iv : bytes) : Mode :=
  {| mode_cls := CBC; isinstance := with_iv;
     initialization_vector := Some iv; nonce := None |}.
Definition ctr (n : bytes) : Mode :=
  {| mode_cls := CTR; isinstance := with_nonce;
     initialization_vector := None; nonce := Some n |}.
Definition ecb : Mode :=
  {| mode_cls := ECB; isinstance := bare;
     initialization_vector := None; nonce := None |}.
Definition cfb (iv : bytes) : Mode :=
  {| mode_cls := CFB; isinstance := with_iv;
     initialization_vector := Some iv; nonce := None |}.
Definition aes256 : Cipher := {| cipher_cls := AES; key := repeat x00 32 |}.
Definition tdes_no_key : Cipher := {| cipher_cls := TripleDES; key := [] |}.
Definition sha1 : Hash := {| hash_name := "sha1" |}.

(** The same library with every update, cleanup and copy reporting
    failure. *)
Definition broken : Lib World :=
  {| EVP_get_cipherbyname := EVP_get_cipherbyname lib;
     EVP_CIPHER_CTX_new := EVP_CIPHER_CTX_new lib;
     EVP_EncryptInit_ex := EVP_EncryptInit_ex lib;
     EVP_DecryptInit_ex := EVP_DecryptInit_ex lib;
     EVP_CIPHER_CTX_set_padding := EVP_CIPHER_CTX_set_padding lib;
     EVP_CIPHER_CTX_block_size := EVP_CIPHER_CTX_block_size lib;
     EVP_EncryptUpdate := fun w _ _ _ => ((0, 0, []), w);
     EVP_DecryptUpdate := fun w _ _ _ => ((0, 0, []), w);
     EVP_EncryptFinal_ex := EVP_EncryptFinal_ex lib;
     EVP_DecryptFinal_ex := EVP_DecryptFinal_ex lib;
     EVP_CIPHER_CTX_cleanup := fun w _ => (0, w);
     EVP_get_digestbyname := EVP_get_digestbyname lib;
     EVP_MD_CTX_create := EVP_MD_CTX_create lib;
     EVP_DigestInit_ex := EVP_DigestInit_ex lib;
     EVP_DigestUpdate := fun w _ _ _ => (0, w);
     EVP_DigestFinal_ex := EVP_DigestFinal_ex lib;
     EVP_MD_CTX_cleanup := fun w _ => (0, w);
     EVP_MD_CTX_copy_ex := fun w _ _ => (0, w) |}.

(** A library that reports more output than the array can hold. *)
Definition overlong : Lib World :=
  {| EVP_get_cipherbyname := EVP_get_cipherbyname lib;
     EVP_CIPHER_CTX_new := EVP_CIPHER_CTX_new lib;
     EVP_EncryptInit_ex := EVP_EncryptInit_ex lib;
     EVP_DecryptInit_ex := EVP_DecryptInit_ex lib;
     EVP_CIPHER_CTX_set_padding := EVP_CIPHER_CTX_set_padding lib;
     EVP_CIPHER_CTX_block_size := EVP_CIPHER_CTX_block_size lib;
     EVP_EncryptUpdate := fun w _ data _ => ((1, len data + 4, data ++ data), w);
     EVP_DecryptUpdate := fun w _ data _ => ((1, len data + 4, data ++ data), w);
     EVP_EncryptFinal_ex := EVP_EncryptFinal_ex lib;
     EVP_DecryptFinal_ex := EVP_DecryptFinal_ex lib;
     EVP_CIPHER_CTX_cleanup := EVP_CIPHER_CTX_cleanup lib;
     EVP_get_digestbyname := EVP_get_digestbyname lib;
     EVP_MD_CTX_create := EVP_MD_CTX_create lib;
     EVP_DigestInit_ex := EVP_DigestInit_ex lib;
     EVP_DigestUpdate := EVP_DigestUpdate lib;
     EVP_DigestFinal_ex := EVP_DigestFinal_ex lib;
     EVP_MD_CTX_cleanup := EVP_MD_CTX_cleanup lib;
     EVP_MD_CTX_copy_ex := EVP_MD_CTX_copy_ex lib |}.

(** A started process whose context holds one pending byte. *)
Definition midblock : State World :=
  {| _cipher_registry := _cipher_registry started;
     world := pending_one x01; calls := [] |}.

(** A mode object that passes both interface tests. *)
Definition both (iv n : bytes) : Mode :=
  {| mode_cls := CBC; isinstance := fun _ => true;
     initialization_vector := Some iv; nonce := Some n |}.

Definition tdes (k : bytes) : Cipher := {| cipher_cls := TripleDES; key := k |}.

End Sample.


(** ** Vocabulary of the statements *)

(** The strings [encode("ascii")] accepts. *)
Fixpoint is_ascii (s : string) : bool :=
  match s with
  | EmptyString => true
  | String c r => (N_of_ascii c <? 128)%N && is_ascii r
  end.

(** The name an adapter hands to [EVP_get_cipherbyname]: the template
    formatted, lowercased and encoded. *)
Definition native_name (a : Adapter) (cipher : Cipher) (mode : Mode)
  : Result bytes :=
  match str_format (_fmt a) cipher mode with
  | Ok formatted => encode_ascii (lower formatted)
  | Raise e => Raise e
  end.

(** The two adapters [Ciphers._register_default_ciphers] builds. *)
Definition sized_adapter : Adapter :=
  GetCipherByName "{cipher.name}-{cipher.key_size}-{mode.name}".
Definition des_ede3_adapter : Adapter :=
  GetCipherByName "des-ede3-{mode.name}".

(** The registry [Ciphers._register_default_ciphers] is expected to
    build. *)
Definition default_adapter (c : CipherCls) (m : ModeCls) : option Adapter :=
  match c, m with
  | (AES | Camellia), _ => Some sized_adapter
  | TripleDES, (CBC | CFB | OFB) => Some des_ede3_adapter
  | TripleDES, _ => None
  end.

(** A registry that holds only adapters the backend itself builds. *)
Definition backend_adapters_only (r : gmap (CipherCls * ModeCls) Adapter) : Prop :=
  map_Forall (fun _ a => a = sized_adapter \/ a = des_ede3_adapter) r.

(** A hash class whose name is the single letter U+00E9. *)
Definition e_acute : Hash := {| hash_name := String "233"%char EmptyString |}.

(** The value the interface tests of [Ciphers._create_ctx] select for the
    [iv] argument of the init call. *)
Definition selected_iv_nonce (mode : Mode) : Result CharArg :=
  if isinstance mode ModeWithInitializationVector then
    match initialization_vector mode with
    | Some v => Ok (ArgBytes v)
    | None => Raise AttributeError
    end
  else if isinstance mode ModeWithNonce then
    match nonce mode with
    | Some v => Ok (ArgBytes v)
    | None => Raise AttributeError
    end
  else Ok ArgNULL.

(** A mode that implements neither interface. *)
Definition is_bare (mode : Mode) : Prop :=
  isinstance mode ModeWithInitializationVector = false /\
  isinstance mode ModeWithNonce = false.

(** The state once the calls [cs] have been logged and the native world
    is [w]. *)
Definition after {W : Type} (s : State W) (w : W) (cs : list Call.t) : State W :=
  {| _cipher_registry := _cipher_registry s; world := w; calls := calls s ++ cs |}.


(** The registrations [Ciphers._register_default_ciphers] attempts, in the
    order of its two loops. *)
Definition default_registrations : list (CipherCls * ModeCls * Adapter) :=
  map (fun k => (k, sized_adapter))
      (product [AES; Camellia] [CBC; CTR; ECB; OFB; CFB])
  ++ map (fun m => (TripleDES, m, des_ede3_adapter)) [CBC; CFB; OFB].

(** The state with another registry. *)
Definition with_registry {W : Type} (s : State W)
    (r : gmap (CipherCls * ModeCls) Adapter) : State W :=
  {| _cipher_registry := r; world := world s; calls := calls s |}.

(** Whether the library knows the algorithm called [name] in world [w]. *)
Definition knows_cipher {W : Type} (lib : Lib W) (w : W) (name : string) : bool :=
  negb (NULL =? EVP_get_cipherbyname lib w (list_byte_of_string name)).

(** Strings without a NUL character. *)
Fixpoint no_nul (s : string) : bool :=
  match s with
  | EmptyString => true
  | String c r => negb (N_of_ascii c =? 0)%N && no_nul r
  end.

(** A path component that is not empty, is relative and does not end in
    a separator. *)
Definition plain_component (b : string) : bool :=
  negb (bool_decide (b = EmptyString)) && negb (String.prefix "/" b)
  && negb (vectors.endswith_sep b).

(** A sample import: every binding module exists and declares strings
    made of its own name. *)
Definition sample_import (name : string) : option Backend.Binding :=
  Some {| Backend.TYPES := "T " +:+ name; Backend.MACROS := "M " +:+ name;
          Backend.FUNCTIONS := "F " +:+ name;
          Backend.INCLUDES := "I " +:+ name |}.

(** A sample import in which the [evp] binding is missing. *)
Definition import_without_evp (name : string) : option Backend.Binding :=
  if String.eqb name "cryptography.bindings.openssl.evp" then None
  else sample_import name.

(** Registering the entries of a list one after the other, as the loops
    of [Ciphers._register_default_ciphers] do. *)
Definition register_each {W : Type} (rs : list (CipherCls * ModeCls * Adapter))
  : M W unit :=
  for_each rs (fun '(c, m, a) => Ciphers.register_cipher_adapter c m a).


(** The library kept inside an array of [n] bytes when it wrote
    [written].  What happens when it did not is outside the Python
    program and outside [store]. *)
Definition written_within (written : bytes) (n : Z) : Prop := len written <= n.

(** ** Tactics for the monad *)

Ltac run_monad :=
  unfold mbind, M_bind, mret, M_ret, query, native, local, raise; simpl.

Ltac unfold_dir d :=
  destruct d; unfold create_ctx_for, update_ctx_for, finalize_ctx_for,
              EVP_Init_ex, EVP_Update, EVP_Final_ex,
              Call_Init_ex, Call_Update, Call_Final_ex in *.

(** * Properties *)

(** ** Byte strings and slices *)

Lemma length_zeroed (n : Z) : length (zeroed n) = Z.to_nat n.
Proof. unfold zeroed. apply repeat_length. Qed.

Lemma length_store (buf written : bytes) : length (store buf written) = length buf.
Proof.
  unfold store. rewrite length_take, length_app, length_drop. lia.
Qed.

Lemma store_prefix (buf written : bytes) (k : nat) :
  (k <= length written)%nat -> (k <= length buf)%nat ->
  firstn k (store buf written) = firstn k written.
Proof.
  intros Hw Hb. unfold store.
  rewrite take_take, Nat.min_l by lia.
  rewrite take_app_le by lia. reflexivity.
Qed.

Lemma skipn_repeat_sub {A} (x : A) (k n : nat) :
  skipn k (repeat x n) = repeat x (n - k).
Proof.
  revert n. induction k as [| k IH]; intros [| n]; simpl; auto.
Qed.

Lemma store_zeroed_within (n : Z) (written : bytes) :
  len written <= n ->
  store (zeroed n) written = written ++ zeroed (n - len written).
Proof.
  unfold len, store, zeroed. intros Hfit.
  rewrite repeat_length, skipn_repeat_sub.
  replace (Z.to_nat n - length written)%nat
    with (Z.to_nat (n - Z.of_nat (length written))) by lia.
  apply firstn_all2. rewrite length_app, repeat_length. lia.
Qed.

Lemma length_slice_to {A} (l : list A) (stop : Z) :
  (length (slice_to l stop) <= length l)%nat.
Proof. unfold slice_to. rewrite length_take. lia. Qed.

Lemma slice_to_within {A} (l : list A) (stop : Z) :
  0 <= stop <= Z.of_nat (length l) ->
  slice_to l stop = firstn (Z.to_nat stop) l /\
  Z.of_nat (length (slice_to l stop)) = stop.
Proof.
  intros H. unfold slice_to.
  destruct (Z.ltb_spec stop 0) as [Hneg | _]; [lia |].
  rewrite Z.min_l by lia. split; [reflexivity |].
  rewrite length_take. lia.
Qed.


(** ** Streaming cipher engine: update *)

(** [Ciphers.update_encrypt_ctx] and [Ciphers.update_decrypt_ctx], step by
    step. *)
Lemma update_ctx_for_eq {W : Type} (lib : Lib W) (d : Direction)
    (ctx : ptr) (data : bytes) (s : State W) :
  update_ctx_for lib d ctx data s
  = let block_size := EVP_CIPHER_CTX_block_size lib (world s) ctx in
    let n := len data + block_size - 1 in
    let s1 := after s (world s) [Call.CIPHER_CTX_block_size ctx;
                                 Call.ffi_new_uchar_array n] in
    if n <? 0 then (Raise ValueError, s1)
    else
      let '(res, outlen, written, w1) :=
        EVP_Update lib d (world s) ctx data (len data) in
      let s2 := after s1 w1 [Call.ffi_new_int;
                             Call_Update d ctx data (len data)] in
      if res =? 0 then (Raise AssertionError, s2)
      else (Ok (slice_to (store (zeroed n) written) outlen), s2).
Proof.
  unfold_dir d;
    [unfold Ciphers.update_encrypt_ctx | unfold Ciphers.update_decrypt_ctx];
    run_monad; unfold ffi_new_uchar_array, ffi_new_int, local, after; simpl;
    rewrite <- ?app_assoc; simpl;
    (destruct (len data + EVP_CIPHER_CTX_block_size lib (world s) ctx - 1 <? 0);
     [reflexivity |]); simpl;
    match goal with
    | |- context [?f lib (world s) ctx data (len data)] =>
        destruct (f lib (world s) ctx data (len data))
          as [[[res outlen] written] w1]
    end; simpl;
    rewrite <- ?app_assoc; simpl;
    destruct (res =? 0); reflexivity.
Qed.

(** The claim C1 fails at the bound it names.  Fed two bytes, a library
    of block size 4 that writes four bytes and reports
    [len(data) + block_size = 6] of them gets back the five bytes of the
    array, not six. *)
Lemma update_returns_fewer_bytes_than_reported :
  EVP_Update Sample.overlong Encrypt (world Sample.started) 16 [x01; x02] 2
  = (1,
     len [x01; x02]
     + EVP_CIPHER_CTX_block_size Sample.overlong (world Sample.started) 16,
     [x01; x02; x01; x02], Sample.boot) /\
  fst (update_ctx_for Sample.overlong Encrypt 16 [x01; x02] Sample.started)
  = Ok [x01; x02; x01; x02; x00] /\
  len [x01; x02; x01; x02; x00]
  <> len [x01; x02]
     + EVP_CIPHER_CTX_block_size Sample.overlong (world Sample.started) 16.
Proof. split; [reflexivity |]. split; [reflexivity |]. discriminate. Qed.

(** C1, amended.  Whenever the allocation is possible and the library
    reports success, having written within the array,
    [Ciphers.update_encrypt_ctx] and [Ciphers.update_decrypt_ctx]
    return; they have asked [ffi.new] for exactly
    [len(data) + block_size - 1] bytes, and the result is
    [buf[:outlen]]: never longer than the array, so at most
    [len(data) + block_size - 1] bytes, and exactly the [outlen] bytes
    the library wrote whenever [outlen] lies within the array.
    Conversely every result returned is a slice of an array of that
    size. *)
Theorem update_buffer_and_output {W : Type} (lib : Lib W) (d : Direction)
    (s : State W) (ctx : ptr) (data : bytes)
    (res outlen : Z) (written : bytes) (w' : W) :
  let block_size := EVP_CIPHER_CTX_block_size lib (world s) ctx in
  let n := len data + block_size - 1 in
  EVP_Update lib d (world s) ctx data (len data) = (res, outlen, written, w') ->
  0 <= n ->
  res <> 0 ->
  written_within written n ->
  (exists out s',
     update_ctx_for lib d ctx data s = (Ok out, s') /\
     calls s' = calls s ++ [Call.CIPHER_CTX_block_size ctx;
                            Call.ffi_new_uchar_array n;
                            Call.ffi_new_int;
                            Call_Update d ctx data (len data)] /\
     world s' = w' /\
     out = slice_to (written ++ zeroed (n - len written)) outlen /\
     0 <= len out <= n /\
     (0 <= outlen <= n ->
      len out = outlen /\
      (outlen <= len written -> out = firstn (Z.to_nat outlen) written))) /\
  (forall t chunk out t',
     update_ctx_for lib d ctx chunk t = (Ok out, t') ->
     let size := len chunk + EVP_CIPHER_CTX_block_size lib (world t) ctx - 1 in
     In (Call.ffi_new_uchar_array size) (calls t') /\
     0 <= len out <= size).
Proof.
  intros block_size n Hupd Hn Hres Hwithin. split.
  - assert (Hnew : (n <? 0) = false) by (apply Z.ltb_ge; exact Hn).
    rewrite update_ctx_for_eq. cbv zeta. fold block_size. fold n.
    rewrite Hnew, Hupd.
    destruct (Z.eqb_spec res 0) as [| _]; [contradiction |].
    eexists. eexists. split; [reflexivity |].
    unfold after. simpl. rewrite <- !app_assoc. simpl.
    split; [reflexivity |]. split; [reflexivity |].
    split; [rewrite (store_zeroed_within n written Hwithin); reflexivity |].
    assert (Hlen : Z.of_nat (length (store (zeroed n) written)) = n).
    { rewrite length_store, length_zeroed. lia. }
    assert (Hle : 0 <= len (slice_to (store (zeroed n) written) outlen) <= n).
    { unfold len.
      pose proof (length_slice_to (store (zeroed n) written) outlen). lia. }
    split; [exact Hle |].
    intros Hfit.
    destruct (slice_to_within (store (zeroed n) written) outlen) as [Heq Hl];
      [lia |].
    split; [exact Hl |].
    intros Hw. rewrite Heq. apply store_prefix.
    + unfold len in Hw. lia.
    + rewrite length_zeroed. lia.
  - intros t chunk out t'. rewrite update_ctx_for_eq. simpl.
    set (size := len chunk + EVP_CIPHER_CTX_block_size lib (world t) ctx - 1).
    destruct (Z.ltb_spec size 0) as [| Hpos]; [discriminate |].
    destruct (EVP_Update lib d (world t) ctx chunk (len chunk))
      as [[[r o] wr] u1].
    destruct (r =? 0); [discriminate |].
    intros [= <- <-]. split.
    + unfold after. simpl. rewrite !in_app_iff. simpl. auto.
    + unfold len.
      pose proof (length_slice_to (store (zeroed size) wr) o) as Hle.
      rewrite length_store, length_zeroed in Hle. lia.
Qed.

(** A one-byte chunk fed to a fresh context of the sample library (block
    size 4): four bytes are allocated and no byte comes out. *)
Lemma update_buffer_and_output_witness :
  exists s',
    update_ctx_for Sample.lib Encrypt 16 [x01] Sample.started = (Ok [], s') /\
    last (calls s') = Some (Call.EncryptUpdate 16 [x01] 1) /\
    In (Call.ffi_new_uchar_array 4) (calls s').
Proof.
  destruct (update_buffer_and_output Sample.lib Encrypt Sample.started 16 [x01]
              1 0 [] (Sample.pending_one x01))
    as [(out & s' & Hrun & Hcalls & _ & Hout & _) _].
  - reflexivity.
  - vm_compute. discriminate.
  - discriminate.
  - vm_compute. discriminate.
  - exists s'. rewrite Hrun, Hout, Hcalls. vm_compute.
    split; [reflexivity |]. split; [reflexivity |]. right. left. reflexivity.
Defined.

(** ** Names *)

Lemma encode_ascii_ok (s : string) :
  is_ascii s = true -> encode_ascii s = Ok (list_byte_of_string s).
Proof.
  induction s as [| c r IH]; simpl; [reflexivity |].
  intros [Hc Hr]%andb_true_iff. rewrite Hc, (IH Hr). reflexivity.
Qed.

Lemma encode_ascii_raises (s : string) :
  is_ascii s = false -> encode_ascii s = Raise UnicodeEncodeError.
Proof.
  induction s as [| c r IH]; simpl; [discriminate |].
  destruct (N_of_ascii c <? 128)%N; simpl; [| reflexivity].
  intros Hr. rewrite (IH Hr). reflexivity.
Qed.

Lemma is_ascii_app (a b : string) :
  is_ascii (a +:+ b) = is_ascii a && is_ascii b.
Proof.
  induction a as [| c r IH]; simpl; [reflexivity |].
  rewrite IH. apply andb_assoc.
Qed.

Lemma lower_char_ascii (c : ascii) :
  (N_of_ascii c <? 128)%N = true -> (N_of_ascii (lower_char c) <? 128)%N = true.
Proof. destruct c as [[] [] [] [] [] [] [] []]; vm_compute; trivial. Qed.

Lemma is_ascii_lower (s : string) : is_ascii s = true -> is_ascii (lower s) = true.
Proof.
  induction s as [| c r IH]; simpl; [reflexivity |].
  intros [Hc Hr]%andb_true_iff.
  rewrite (lower_char_ascii c Hc), (IH Hr). reflexivity.
Qed.

Lemma is_ascii_digits (d : Decimal.uint) :
  is_ascii (NilEmpty.string_of_uint d) = true.
Proof. induction d; simpl; auto. Qed.

Lemma is_ascii_str_of_int (n : Z) : is_ascii (str_of_int n) = true.
Proof.
  unfold str_of_int.
  destruct (Z.to_int n) as [d | d]; simpl.
  - destruct d; try reflexivity; apply (is_ascii_digits (_ d)).
  - destruct d; try reflexivity; apply (is_ascii_digits (_ d)).
Qed.

Lemma is_ascii_cipher_name (c : CipherCls) : is_ascii (cipher_name c) = true.
Proof. destruct c; reflexivity. Qed.

Lemma is_ascii_mode_name (m : ModeCls) : is_ascii (mode_name m) = true.
Proof. destruct m; reflexivity. Qed.

Lemma append_empty_r (s : string) : s +:+ "" = s.
Proof.
  induction s as [| c r IH]; [reflexivity |].
  change (String c (r +:+ "") = String c r). by rewrite IH.
Qed.

Lemma format_sized (cipher : Cipher) (mode : Mode) :
  str_format (_fmt sized_adapter) cipher mode
  = Ok (cipher_name (cipher_cls cipher) +:+ "-" +:+
        str_of_int (key_size cipher) +:+ "-" +:+ mode_name (mode_cls mode)).
Proof.
  rewrite <- (append_empty_r (mode_name (mode_cls mode))) at 1.
  reflexivity.
Qed.

Lemma format_des_ede3 (cipher : Cipher) (mode : Mode) :
  str_format (_fmt des_ede3_adapter) cipher mode
  = Ok ("des-ede3-" +:+ mode_name (mode_cls mode)).
Proof.
  rewrite <- (append_empty_r (mode_name (mode_cls mode))) at 1.
  reflexivity.
Qed.

Lemma native_name_sized (cipher : Cipher) (mode : Mode) :
  native_name sized_adapter cipher mode
  = Ok (list_byte_of_string
          (lower (cipher_name (cipher_cls cipher) +:+ "-" +:+
                  str_of_int (key_size cipher) +:+ "-" +:+
                  mode_name (mode_cls mode)))).
Proof.
  unfold native_name. rewrite format_sized.
  apply encode_ascii_ok, is_ascii_lower.
  rewrite !is_ascii_app, is_ascii_cipher_name, is_ascii_str_of_int,
    is_ascii_mode_name.
  reflexivity.
Qed.

Lemma native_name_des_ede3 (cipher : Cipher) (mode : Mode) :
  native_name des_ede3_adapter cipher mode
  = Ok (list_byte_of_string (lower ("des-ede3-" +:+ mode_name (mode_cls mode)))).
Proof.
  unfold native_name. rewrite format_des_ede3.
  apply encode_ascii_ok, is_ascii_lower.
  rewrite is_ascii_app, is_ascii_mode_name. reflexivity.
Qed.

Lemma GetCipherByName_call_name {W : Type} (lib : Lib W) (a : Adapter)
    (cipher : Cipher) (mode : Mode) (s : State W) :
  GetCipherByName_call lib a cipher mode s
  = match native_name a cipher mode with
    | Ok name =>
        query (Call.get_cipherbyname name)
              (fun w => EVP_get_cipherbyname lib w name) s
    | Raise e => (Raise e, s)
    end.
Proof.
  unfold GetCipherByName_call, native_name.
  destruct (str_format (_fmt a) cipher mode); [| reflexivity].
  destruct (encode_ascii _); reflexivity.
Qed.

(** ** Cipher registry *)

Lemma register_fresh {W : Type} (s : State W) (c : CipherCls) (m : ModeCls)
    (a : Adapter) :
  _cipher_registry s !! (c, m) = None ->
  Ciphers.register_cipher_adapter c m a s
  = (Ok tt, {| _cipher_registry := <[(c, m) := a]> (_cipher_registry s);
               world := world s; calls := calls s |}).
Proof.
  intros Hnone. unfold Ciphers.register_cipher_adapter, get_registry, set_registry.
  run_monad. rewrite Hnone.
  destruct (decide (is_Some None)) as [[x Hx] | _]; [discriminate | reflexivity].
Qed.

Lemma register_taken {W : Type} (s : State W) (c : CipherCls) (m : ModeCls)
    (a : Adapter) :
  is_Some (_cipher_registry s !! (c, m)) ->
  Ciphers.register_cipher_adapter c m a s = (Raise ValueError, s).
Proof.
  intros Hsome. unfold Ciphers.register_cipher_adapter, get_registry.
  run_monad. destruct (decide _); [reflexivity | contradiction].
Qed.

(** C2.  From an empty registry, [Ciphers._register_default_ciphers]
    registers the key-size template for every pair of {AES, Camellia} with {CBC,
    CTR, ECB, OFB, CFB} and the fixed [des-ede3] template for TripleDES
    with CBC, CFB and OFB, and nothing else.  The first adapter hands the
    library the lowercased ["{cipher_name}-{key_size}-{mode_name}"], the
    second the lowercased ["des-ede3-{mode_name}"]; so AES with a 16-byte
    key and CBC is looked up as ["aes-128-cbc"]. *)
Theorem default_registry_population {W : Type} (lib : Lib W) (s : State W) :
  (exists s',
     Ciphers.__init__ s = (Ok tt, s') /\
     world s' = world s /\ calls s' = calls s /\
     forall c m, _cipher_registry s' !! (c, m) = default_adapter c m) /\
  (forall cipher mode t,
     GetCipherByName_call lib sized_adapter cipher mode t
     = let name := list_byte_of_string
                     (lower (cipher_name (cipher_cls cipher) +:+ "-" +:+
                             str_of_int (key_size cipher) +:+ "-" +:+
                             mode_name (mode_cls mode))) in
       query (Call.get_cipherbyname name)
             (fun w => EVP_get_cipherbyname lib w name) t) /\
  (forall cipher mode t,
     GetCipherByName_call lib des_ede3_adapter cipher mode t
     = let name := list_byte_of_string
                     (lower ("des-ede3-" +:+ mode_name (mode_cls mode))) in
       query (Call.get_cipherbyname name)
             (fun w => EVP_get_cipherbyname lib w name) t) /\
  (forall k inst iv n,
     (length k = 16%nat ->
      native_name sized_adapter {| cipher_cls := AES; key := k |}
        {| mode_cls := CBC; isinstance := inst;
           initialization_vector := iv; nonce := n |}
      = Ok (list_byte_of_string "aes-128-cbc")) /\
     (length k = 32%nat ->
      native_name sized_adapter {| cipher_cls := AES; key := k |}
        {| mode_cls := ECB; isinstance := inst;
           initialization_vector := iv; nonce := n |}
      = Ok (list_byte_of_string "aes-256-ecb")) /\
     native_name des_ede3_adapter {| cipher_cls := TripleDES; key := k |}
       {| mode_cls := CFB; isinstance := inst;
          initialization_vector := iv; nonce := n |}
     = Ok (list_byte_of_string "des-ede3-cfb")).
Proof.
  split; [| split; [| split]].
  - eexists. split; [vm_compute; reflexivity |].
    split; [reflexivity |]. split; [reflexivity |].
    intros [] []; vm_compute; reflexivity.
  - intros cipher mode t.
    rewrite GetCipherByName_call_name, native_name_sized. reflexivity.
  - intros cipher mode t.
    rewrite GetCipherByName_call_name, native_name_des_ede3. reflexivity.
  - intros k inst iv n. split; [| split].
    + intros Hk. rewrite native_name_sized. unfold key_size. simpl.
      rewrite Hk. reflexivity.
    + intros Hk. rewrite native_name_sized. unfold key_size. simpl.
      rewrite Hk. reflexivity.
    + rewrite native_name_des_ede3. reflexivity.
Qed.

(** A sixteen-byte AES key with CBC, and a TripleDES key with CFB. *)
Lemma default_registry_population_witness :
  native_name sized_adapter Sample.aes128 (Sample.cbc [])
  = Ok (list_byte_of_string "aes-128-cbc").
Proof.
  destruct (default_registry_population Sample.lib Sample.fresh)
    as (_ & _ & _ & Hex).
  destruct (Hex (repeat x00 16) Sample.with_iv (Some []) None) as (H16 & _ & _).
  apply H16. reflexivity.
Defined.

(** C3.  Registering a pair that already has an adapter raises
    [ValueError] and leaves the whole state as it was; looking the pair
    up afterwards still yields the adapter registered first. *)
Theorem duplicate_registration_rejected {W : Type} (s : State W)
    (c : CipherCls) (m : ModeCls) (first second : Adapter) :
  _cipher_registry s !! (c, m) = Some first ->
  exists s',
    Ciphers.register_cipher_adapter c m second s = (Raise ValueError, s') /\
    s' = s /\
    _cipher_registry s' !! (c, m) = Some first /\
    forall cipher mode,
      cipher_cls cipher = c -> mode_cls mode = m ->
      Ciphers.registry_getitem cipher mode s' = (Ok first, s').
Proof.
  intros Hfirst. exists s.
  split; [apply register_taken; rewrite Hfirst; eauto |].
  split; [reflexivity |]. split; [exact Hfirst |].
  intros cipher mode <- <-.
  unfold Ciphers.registry_getitem, get_registry. run_monad. rewrite Hfirst. reflexivity.
Qed.

(** Registering (AES, CBC) a second time in a started process. *)
Lemma duplicate_registration_rejected_witness :
  fst (Ciphers.register_cipher_adapter AES CBC des_ede3_adapter Sample.started)
  = Raise ValueError /\
  fst (Ciphers.registry_getitem Sample.aes128 (Sample.cbc [])
         (snd (Ciphers.register_cipher_adapter AES CBC des_ede3_adapter Sample.started)))
  = Ok sized_adapter.
Proof.
  destruct (duplicate_registration_rejected Sample.started AES CBC
              sized_adapter des_ede3_adapter)
    as (s' & Hreg & _ & _ & Hget).
  - vm_compute. reflexivity.
  - rewrite Hreg. simpl. split; [reflexivity |].
    rewrite (Hget Sample.aes128 (Sample.cbc [])); reflexivity.
Defined.

(** ** Support queries *)

Lemma native_name_backend_adapter (a : Adapter) (cipher : Cipher) (mode : Mode) :
  a = sized_adapter \/ a = des_ede3_adapter ->
  exists name, native_name a cipher mode = Ok name.
Proof.
  intros [-> | ->]; eexists.
  - apply native_name_sized.
  - apply native_name_des_ede3.
Qed.

Lemma Ciphers_supported_unregistered {W : Type} (lib : Lib W) (s : State W)
    (cipher : Cipher) (mode : Mode) :
  _cipher_registry s !! (cipher_cls cipher, mode_cls mode) = None ->
  Ciphers.supported lib cipher mode s = (Ok false, s).
Proof.
  intros Hnone.
  unfold Ciphers.supported, try_except, Ciphers.registry_getitem, get_registry.
  run_monad. rewrite Hnone. simpl. reflexivity.
Qed.

Lemma Ciphers_supported_registered {W : Type} (lib : Lib W) (s : State W)
    (cipher : Cipher) (mode : Mode) (a : Adapter) (name : bytes) :
  _cipher_registry s !! (cipher_cls cipher, mode_cls mode) = Some a ->
  native_name a cipher mode = Ok name ->
  Ciphers.supported lib cipher mode s
  = (Ok (negb (NULL =? EVP_get_cipherbyname lib (world s) name)),
     {| _cipher_registry := _cipher_registry s; world := world s;
        calls := calls s ++ [Call.get_cipherbyname name] |}).
Proof.
  intros Hsome Hname.
  unfold Ciphers.supported, try_except, Ciphers.registry_getitem, get_registry.
  run_monad. rewrite Hsome. simpl.
  rewrite GetCipherByName_call_name, Hname. reflexivity.
Qed.

(** The claim C4 fails for [Hashes.supported]: a hash class whose name
    holds a character outside ASCII makes [encode("ascii")] raise, and
    the exception leaves the method. *)
Lemma Hashes_supported_raises_outside_ascii :
  fst (Hashes.supported Sample.lib e_acute Sample.started)
  = Raise UnicodeEncodeError /\
  ~ exists b : bool,
      fst (Hashes.supported Sample.lib e_acute Sample.started) = Ok b.
Proof. split; [reflexivity |]. intros [b Hb]. discriminate Hb. Qed.

(** C4, amended.  With the adapters the backend registers,
    [Ciphers.supported] returns a boolean for every cipher and mode:
    [False] without touching the library when the pair has no adapter,
    and otherwise whether the library knows the resolved name, so [False]
    when it answers [NULL].  [Hashes.supported] returns that boolean for
    every algorithm name made of ASCII characters. *)
Theorem supported_returns_bool {W : Type} (lib : Lib W) (s : State W) :
  (backend_adapters_only (_cipher_registry s) ->
   forall cipher mode,
   exists b s',
     Ciphers.supported lib cipher mode s = (Ok b, s') /\
     world s' = world s /\
     _cipher_registry s' = _cipher_registry s /\
     match _cipher_registry s !! (cipher_cls cipher, mode_cls mode) with
     | None => b = false /\ s' = s
     | Some a =>
         exists name,
           native_name a cipher mode = Ok name /\
           b = negb (NULL =? EVP_get_cipherbyname lib (world s) name) /\
           (EVP_get_cipherbyname lib (world s) name = NULL -> b = false)
     end) /\
  (forall hash_cls,
     is_ascii (hash_name hash_cls) = true ->
     exists b s',
       Hashes.supported lib hash_cls s = (Ok b, s') /\
       world s' = world s /\
       b = negb (NULL =? EVP_get_digestbyname lib (world s)
                           (list_byte_of_string (hash_name hash_cls)))).
Proof.
  split.
  - intros Hreg cipher mode.
    destruct (_cipher_registry s !! (cipher_cls cipher, mode_cls mode))
      as [a |] eqn:Hlook.
    + destruct (native_name_backend_adapter a cipher mode) as [name Hname].
      { exact (Hreg _ _ Hlook). }
      eexists. eexists.
      split; [apply (Ciphers_supported_registered lib s cipher mode a name);
              assumption |].
      split; [reflexivity |]. split; [reflexivity |].
      exists name. split; [exact Hname |]. split; [reflexivity |].
      intros ->. reflexivity.
    + exists false, s.
      split; [apply Ciphers_supported_unregistered; exact Hlook |]. auto.
  - intros hash_cls Hascii.
    unfold Hashes.supported, Hashes.get_digestbyname. run_monad.
    rewrite (encode_ascii_ok _ Hascii). simpl.
    eexists. eexists. split; [reflexivity |]. split; reflexivity.
Qed.

(** ** Context creation *)

(** [Ciphers._create_ctx], step by step. *)
Lemma _create_ctx_eq {W : Type} (lib : Lib W) (cipher : Cipher) (mode : Mode)
    (s : State W) :
  Ciphers._create_ctx lib cipher mode s
  = let '(ctx, w1) := EVP_CIPHER_CTX_new lib (world s) in
    let s1 := after s w1 [Call.CIPHER_CTX_new; Call.ffi_gc ctx EVP_CIPHER_CTX_free] in
    match _cipher_registry s !! (cipher_cls cipher, mode_cls mode) with
    | None => (Raise KeyError, s1)
    | Some adapter =>
        match native_name adapter cipher mode with
        | Raise e => (Raise e, s1)
        | Ok name =>
            let evp := EVP_get_cipherbyname lib w1 name in
            let s2 := after s1 w1 [Call.get_cipherbyname name] in
            if evp =? NULL then (Raise AssertionError, s2)
            else match selected_iv_nonce mode with
                 | Raise e => (Raise e, s2)
                 | Ok iv_nonce => (Ok (ctx, evp, iv_nonce), s2)
                 end
        end
    end.
Proof.
  unfold Ciphers._create_ctx, ffi_gc, Ciphers.registry_getitem, get_registry, after.
  run_monad.
  destruct (EVP_CIPHER_CTX_new lib (world s)) as [ctx w1]. simpl.
  rewrite <- app_assoc. simpl.
  destruct (_cipher_registry s !! (cipher_cls cipher, mode_cls mode))
    as [adapter |]; simpl; [| reflexivity].
  rewrite GetCipherByName_call_name.
  destruct (native_name adapter cipher mode) as [name | e]; [| reflexivity].
  unfold query, native. simpl.
  destruct (EVP_get_cipherbyname lib w1 name =? NULL); simpl; [reflexivity |].
  unfold selected_iv_nonce, Ciphers.getattr.
  destruct (isinstance mode ModeWithInitializationVector).
  - destruct (initialization_vector mode); reflexivity.
  - destruct (isinstance mode ModeWithNonce); [| reflexivity].
    destruct (nonce mode); reflexivity.
Qed.

Lemma _create_ctx_Ok {W : Type} (lib : Lib W) (cipher : Cipher) (mode : Mode)
    (s s' : State W) (ctx evp : ptr) (iv_nonce : CharArg) :
  Ciphers._create_ctx lib cipher mode s = (Ok (ctx, evp, iv_nonce), s') ->
  exists w1 adapter name,
    EVP_CIPHER_CTX_new lib (world s) = (ctx, w1) /\
    _cipher_registry s !! (cipher_cls cipher, mode_cls mode) = Some adapter /\
    native_name adapter cipher mode = Ok name /\
    evp = EVP_get_cipherbyname lib w1 name /\
    evp <> NULL /\
    selected_iv_nonce mode = Ok iv_nonce /\
    s' = after s w1 [Call.CIPHER_CTX_new; Call.ffi_gc ctx EVP_CIPHER_CTX_free;
                     Call.get_cipherbyname name].
Proof.
  rewrite _create_ctx_eq.
  destruct (EVP_CIPHER_CTX_new lib (world s)) as [ctx0 w1].
  destruct (_cipher_registry s !! (cipher_cls cipher, mode_cls mode))
    as [adapter |]; [| discriminate].
  destruct (native_name adapter cipher mode) as [name | e] eqn:Hname;
    [| discriminate].
  simpl.
  destruct (Z.eqb_spec (EVP_get_cipherbyname lib w1 name) NULL) as [| Hnn];
    [discriminate |].
  destruct (selected_iv_nonce mode) as [iv |] eqn:Hsel; [| discriminate].
  intros [= <- <- <- <-].
  exists w1, adapter, name. unfold after. simpl. rewrite <- app_assoc.
  repeat split; auto.
Qed.

(** In a started process (AES, CBC) is supported by the sample library,
    and ["sha1"] is a hash it knows. *)
Lemma supported_returns_bool_witness :
  (exists b s',
     Ciphers.supported Sample.lib Sample.aes128 (Sample.cbc []) Sample.started
     = (Ok b, s')) /\
  (exists b s',
     Hashes.supported Sample.lib Sample.sha1 Sample.started = (Ok b, s')).
Proof.
  destruct (supported_returns_bool Sample.lib Sample.started) as [HC HH].
  split.
  - destruct (HC
        ltac:(intros [c m] a Hlook; destruct c, m; vm_compute in Hlook;
              try discriminate; injection Hlook as <-;
              [left | left | left | left | left | left | left | left | left
               | left | right | right | right]; reflexivity)
        Sample.aes128 (Sample.cbc []))
      as (b & s' & Hrun & _).
    exists b, s'. exact Hrun.
  - destruct (HH Sample.sha1 eq_refl) as (b & s' & Hrun & _).
    exists b, s'. exact Hrun.
Defined.

(** [Ciphers.create_encrypt_ctx] and [Ciphers.create_decrypt_ctx], step by
    step. *)
Lemma create_ctx_for_eq {W : Type} (lib : Lib W) (d : Direction)
    (cipher : Cipher) (mode : Mode) (s : State W) :
  create_ctx_for lib d cipher mode s
  = match Ciphers._create_ctx lib cipher mode s with
    | (Raise e, s1) => (Raise e, s1)
    | (Ok (ctx, evp, iv_nonce), s1) =>
        let '(res, w2) :=
          EVP_Init_ex lib d (world s1) ctx evp NULL (key cipher) iv_nonce in
        let s2 := after s1 w2 [Call_Init_ex d ctx evp NULL (key cipher) iv_nonce] in
        if res =? 0 then (Raise AssertionError, s2)
        else (Ok ctx,
              after s2 (snd (EVP_CIPHER_CTX_set_padding lib w2 ctx 0))
                [Call.CIPHER_CTX_set_padding ctx 0])
    end.
Proof.
  unfold_dir d;
    [unfold Ciphers.create_encrypt_ctx | unfold Ciphers.create_decrypt_ctx];
    run_monad;
    (destruct (Ciphers._create_ctx lib cipher mode s) as [[[[ctx evp] iv] | e] s1];
     [| reflexivity]); simpl;
    match goal with
    | |- context [?f lib (world s1) ctx evp NULL (key cipher) iv] =>
        destruct (f lib (world s1) ctx evp NULL (key cipher) iv) as [res w2]
    end; simpl;
    (destruct (res =? 0); simpl; [reflexivity |]);
    destruct (EVP_CIPHER_CTX_set_padding lib w2 ctx 0); reflexivity.
Qed.

(** [_create_ctx] once the lookups have gone through: the context is the
    one just allocated, the cipher the one the library answered, and the
    third component is what the interface tests select. *)
Lemma _create_ctx_resolved {W : Type} (lib : Lib W) (cipher : Cipher)
    (mode : Mode) (s : State W) (a : Adapter) (name : bytes)
    (ctx : ptr) (w1 : W) :
  _cipher_registry s !! (cipher_cls cipher, mode_cls mode) = Some a ->
  native_name a cipher mode = Ok name ->
  EVP_CIPHER_CTX_new lib (world s) = (ctx, w1) ->
  EVP_get_cipherbyname lib w1 name <> NULL ->
  Ciphers._create_ctx lib cipher mode s
  = (match selected_iv_nonce mode with
     | Ok iv_nonce => Ok (ctx, EVP_get_cipherbyname lib w1 name, iv_nonce)
     | Raise e => Raise e
     end,
     after s w1 [Call.CIPHER_CTX_new; Call.ffi_gc ctx EVP_CIPHER_CTX_free;
                 Call.get_cipherbyname name]).
Proof.
  intros Hlook Hname Hnew Hevp.
  rewrite _create_ctx_eq, Hnew, Hlook, Hname. simpl.
  destruct (Z.eqb_spec (EVP_get_cipherbyname lib w1 name) NULL) as [| _];
    [contradiction |].
  unfold after. simpl. rewrite <- app_assoc. simpl.
  destruct (selected_iv_nonce mode); reflexivity.
Qed.

(** The init call of [create_encrypt_ctx] and [create_decrypt_ctx] comes
    right after [_create_ctx] and is handed its three results. *)
Lemma create_ctx_for_init_call {W : Type} (lib : Lib W) (d : Direction)
    (cipher : Cipher) (mode : Mode) (s s1 : State W)
    (ctx evp : ptr) (iv_nonce : CharArg) :
  Ciphers._create_ctx lib cipher mode s = (Ok (ctx, evp, iv_nonce), s1) ->
  exists rest,
    calls (snd (create_ctx_for lib d cipher mode s))
    = calls s1 ++ Call_Init_ex d ctx evp NULL (key cipher) iv_nonce :: rest.
Proof.
  intros Hcreate. rewrite create_ctx_for_eq, Hcreate.
  destruct (EVP_Init_ex lib d (world s1) ctx evp NULL (key cipher) iv_nonce)
    as [res w2].
  simpl. destruct (res =? 0); simpl.
  - exists []. reflexivity.
  - exists [Call.CIPHER_CTX_set_padding ctx 0].
    rewrite <- app_assoc. reflexivity.
Qed.

(** C5.  Once the adapter of the pair has resolved to a cipher the
    library knows, [Ciphers._create_ctx] returns, and its third result
    follows the interface tests: the [initialization_vector] attribute
    for a mode that passes the initialization-vector test, the [nonce]
    attribute for a mode that passes the nonce test only, [NULL] for a
    bare mode, whatever the object holds in the two attributes.  That
    result is the [iv] argument of the init call that follows, in either
    direction. *)
Theorem iv_nonce_selected_by_capability {W : Type} (lib : Lib W)
    (cipher : Cipher) (mode : Mode) (s : State W) (a : Adapter)
    (name : bytes) (ctx : ptr) (w1 : W) :
  _cipher_registry s !! (cipher_cls cipher, mode_cls mode) = Some a ->
  native_name a cipher mode = Ok name ->
  EVP_CIPHER_CTX_new lib (world s) = (ctx, w1) ->
  EVP_get_cipherbyname lib w1 name <> NULL ->
  let evp := EVP_get_cipherbyname lib w1 name in
  let s1 := after s w1 [Call.CIPHER_CTX_new;
                        Call.ffi_gc ctx EVP_CIPHER_CTX_free;
                        Call.get_cipherbyname name] in
  let passes_on iv_nonce :=
    Ciphers._create_ctx lib cipher mode s = (Ok (ctx, evp, iv_nonce), s1) /\
    forall d, exists rest,
      calls (snd (create_ctx_for lib d cipher mode s))
      = calls s1 ++ Call_Init_ex d ctx evp NULL (key cipher) iv_nonce :: rest in
  (forall v,
     isinstance mode ModeWithInitializationVector = true ->
     initialization_vector mode = Some v ->
     passes_on (ArgBytes v)) /\
  (forall v,
     isinstance mode ModeWithInitializationVector = false ->
     isinstance mode ModeWithNonce = true ->
     nonce mode = Some v ->
     passes_on (ArgBytes v)) /\
  (is_bare mode -> passes_on ArgNULL).
Proof.
  intros Hlook Hname Hnew Hevp evp s1 passes_on.
  assert (Hpass : forall iv_nonce,
            selected_iv_nonce mode = Ok iv_nonce -> passes_on iv_nonce).
  { intros iv_nonce Hsel.
    assert (Hrun : Ciphers._create_ctx lib cipher mode s
                   = (Ok (ctx, evp, iv_nonce), s1)).
    { rewrite (_create_ctx_resolved lib cipher mode s a name ctx w1)
        by assumption.
      rewrite Hsel. reflexivity. }
    split; [exact Hrun |].
    intros d. exact (create_ctx_for_init_call lib d cipher mode s s1 _ _ _ Hrun). }
  split; [| split].
  - intros v Hiv Hattr. apply Hpass.
    unfold selected_iv_nonce. rewrite Hiv, Hattr. reflexivity.
  - intros v Hiv Hn Hattr. apply Hpass.
    unfold selected_iv_nonce. rewrite Hiv, Hn, Hattr. reflexivity.
  - intros [Hiv Hn]. apply Hpass.
    unfold selected_iv_nonce. rewrite Hiv, Hn. reflexivity.
Qed.

(** AES-128 in CBC mode with a one-byte initialization vector and in CTR
    mode with a one-byte nonce, and AES-256 with an ECB object that
    carries both attributes all the same, on the sample library. *)
Lemma iv_nonce_selected_by_capability_witness :
  fst (Ciphers._create_ctx Sample.lib Sample.aes128 (Sample.cbc [x01])
         Sample.started) = Ok (16, 7, ArgBytes [x01]) /\
  fst (Ciphers._create_ctx Sample.lib Sample.aes128 (Sample.ctr [x02])
         Sample.started) = Ok (16, 7, ArgBytes [x02]) /\
  fst (Ciphers._create_ctx Sample.lib Sample.aes256
         {| mode_cls := ECB; isinstance := Sample.bare;
            initialization_vector := Some [x02]; nonce := Some [x03] |}
         Sample.started) = Ok (16, 7, ArgNULL).
Proof.
  split; [| split].
  - destruct (iv_nonce_selected_by_capability Sample.lib Sample.aes128
                (Sample.cbc [x01]) Sample.started sized_adapter
                (list_byte_of_string "aes-128-cbc") 16
                (snd (Sample.alloc Sample.boot)))
      as (Hiv & _ & _);
      [vm_compute; reflexivity | vm_compute; reflexivity | reflexivity
      | vm_compute; discriminate |].
    destruct (Hiv [x01] eq_refl eq_refl) as [Hrun _].
    rewrite Hrun. reflexivity.
  - destruct (iv_nonce_selected_by_capability Sample.lib Sample.aes128
                (Sample.ctr [x02]) Sample.started sized_adapter
                (list_byte_of_string "aes-128-ctr") 16
                (snd (Sample.alloc Sample.boot)))
      as (_ & Hnonce & _);
      [vm_compute; reflexivity | vm_compute; reflexivity | reflexivity
      | vm_compute; discriminate |].
    destruct (Hnonce [x02] eq_refl eq_refl eq_refl) as [Hrun _].
    rewrite Hrun. reflexivity.
  - destruct (iv_nonce_selected_by_capability Sample.lib Sample.aes256
                {| mode_cls := ECB; isinstance := Sample.bare;
                   initialization_vector := Some [x02]; nonce := Some [x03] |}
                Sample.started sized_adapter
                (list_byte_of_string "aes-256-ecb") 16
                (snd (Sample.alloc Sample.boot)))
      as (_ & _ & Hbare);
      [vm_compute; reflexivity | vm_compute; reflexivity | reflexivity
      | vm_compute; discriminate |].
    destruct (Hbare (conj eq_refl eq_refl)) as [Hrun _].
    rewrite Hrun. reflexivity.
Defined.

(** C7.  Whenever [Ciphers.create_encrypt_ctx] or
    [Ciphers.create_decrypt_ctx] returns a context, its last native call
    was
    [EVP_CIPHER_CTX_set_padding(ctx, 0)] on that very context, right
    after the init call, and the native world it leaves is the one that
    call produced. *)
Theorem padding_disabled_on_creation {W : Type} (lib : Lib W) (d : Direction)
    (cipher : Cipher) (mode : Mode) (s s' : State W) (ctx : ptr) :
  create_ctx_for lib d cipher mode s = (Ok ctx, s') ->
  exists evp iv_nonce s1 res w2,
    Ciphers._create_ctx lib cipher mode s = (Ok (ctx, evp, iv_nonce), s1) /\
    EVP_Init_ex lib d (world s1) ctx evp NULL (key cipher) iv_nonce = (res, w2) /\
    res <> 0 /\
    calls s' = calls s1 ++ [Call_Init_ex d ctx evp NULL (key cipher) iv_nonce;
                            Call.CIPHER_CTX_set_padding ctx 0] /\
    last (calls s') = Some (Call.CIPHER_CTX_set_padding ctx 0) /\
    world s' = snd (EVP_CIPHER_CTX_set_padding lib w2 ctx 0).
Proof.
  rewrite create_ctx_for_eq.
  destruct (Ciphers._create_ctx lib cipher mode s) as [[[[ctx0 evp] iv] | e] s1];
    [| discriminate].
  destruct (EVP_Init_ex lib d (world s1) ctx0 evp NULL (key cipher) iv)
    as [res w2] eqn:Hinit.
  simpl. destruct (Z.eqb_spec res 0) as [| Hres]; [discriminate |].
  intros [= <- <-].
  exists evp, iv, s1, res, w2. unfold after. simpl.
  rewrite <- app_assoc. simpl.
  repeat split; auto.
  change (last (calls s1 ++
                [Call_Init_ex d ctx0 evp NULL (key cipher) iv] ++
                [Call.CIPHER_CTX_set_padding ctx0 0])
          = Some (Call.CIPHER_CTX_set_padding ctx0 0)).
  rewrite app_assoc. apply last_snoc.
Qed.

(** Creating an AES-128-CBC encryption context on the sample library:
    the padding flag of the native world ends up cleared. *)
Lemma padding_disabled_on_creation_witness :
  exists s',
    create_ctx_for Sample.lib Encrypt Sample.aes128 (Sample.cbc [x01])
      Sample.started = (Ok 16, s') /\
    last (calls s') = Some (Call.CIPHER_CTX_set_padding 16 0) /\
    Sample.padding (world s') = 0.
Proof.
  exists (snd (create_ctx_for Sample.lib Encrypt Sample.aes128 (Sample.cbc [x01])
                 Sample.started)).
  assert (Hrun :
    create_ctx_for Sample.lib Encrypt Sample.aes128 (Sample.cbc [x01])
      Sample.started
    = (Ok 16, snd (create_ctx_for Sample.lib Encrypt Sample.aes128
                     (Sample.cbc [x01]) Sample.started)))
    by (vm_compute; reflexivity).
  destruct (padding_disabled_on_creation Sample.lib Encrypt Sample.aes128
              (Sample.cbc [x01]) Sample.started _ 16 Hrun)
    as (evp & iv & s1 & res & w2 & _ & _ & _ & _ & Hlast & _).
  split; [exact Hrun |]. split; [exact Hlast |].
  vm_compute. reflexivity.
Defined.

(** C8.  When the native init call returns 0,
    [Ciphers.create_encrypt_ctx] and [Ciphers.create_decrypt_ctx] raise
    [AssertionError]: no context is returned, and the init call was the
    last call made. *)
Theorem init_failure_is_fatal {W : Type} (lib : Lib W) (d : Direction)
    (cipher : Cipher) (mode : Mode) (s s1 : State W)
    (ctx evp : ptr) (iv_nonce : CharArg) (w2 : W) :
  Ciphers._create_ctx lib cipher mode s = (Ok (ctx, evp, iv_nonce), s1) ->
  EVP_Init_ex lib d (world s1) ctx evp NULL (key cipher) iv_nonce = (0, w2) ->
  create_ctx_for lib d cipher mode s
  = (Raise AssertionError,
     after s1 w2 [Call_Init_ex d ctx evp NULL (key cipher) iv_nonce]).
Proof.
  intros Hcreate Hinit.
  rewrite create_ctx_for_eq, Hcreate, Hinit. reflexivity.
Qed.

(** TripleDES with an empty key in CFB mode: the sample library resolves
    the name and then refuses the key. *)
Lemma init_failure_is_fatal_witness :
  fst (create_ctx_for Sample.lib Decrypt Sample.tdes_no_key (Sample.cfb [x01])
         Sample.started)
  = Raise AssertionError.
Proof.
  rewrite (init_failure_is_fatal Sample.lib Decrypt Sample.tdes_no_key
             (Sample.cfb [x01]) Sample.started
             (snd (Ciphers._create_ctx Sample.lib Sample.tdes_no_key (Sample.cfb [x01])
                     Sample.started))
             16 7 (ArgBytes [x01])
             {| Sample.next_ptr := 17; Sample.pending := []; Sample.padding := 1;
                Sample.absorbed := []; Sample.released := [] |}).
  - reflexivity.
  - vm_compute. reflexivity.
  - vm_compute. reflexivity.
Defined.

(** ** Streaming cipher engine: finalize *)

(** [Ciphers.finalize_encrypt_ctx] and [Ciphers.finalize_decrypt_ctx], step
    by step. *)
Lemma finalize_ctx_for_eq {W : Type} (lib : Lib W) (d : Direction)
    (ctx : ptr) (s : State W) :
  finalize_ctx_for lib d ctx s
  = let block_size := EVP_CIPHER_CTX_block_size lib (world s) ctx in
    let s1 := after s (world s) [Call.CIPHER_CTX_block_size ctx;
                                 Call.ffi_new_uchar_array block_size] in
    if block_size <? 0 then (Raise ValueError, s1)
    else
      let '(res, outlen, written, w1) := EVP_Final_ex lib d (world s) ctx in
      let s2 := after s1 w1 [Call.ffi_new_int; Call_Final_ex d ctx] in
      if res =? 0 then (Raise AssertionError, s2)
      else
        let '(res', w2) := EVP_CIPHER_CTX_cleanup lib w1 ctx in
        let s3 := after s2 w2 [Call.CIPHER_CTX_cleanup ctx] in
        if res' =? 1
        then (Ok (slice_to (store (zeroed block_size) written) outlen), s3)
        else (Raise AssertionError, s3).
Proof.
  unfold_dir d;
    [unfold Ciphers.finalize_encrypt_ctx | unfold Ciphers.finalize_decrypt_ctx];
    run_monad; unfold ffi_new_uchar_array, ffi_new_int, local, after; simpl;
    rewrite <- ?app_assoc; simpl;
    (destruct (EVP_CIPHER_CTX_block_size lib (world s) ctx <? 0);
     [reflexivity |]); simpl;
    match goal with
    | |- context [?f lib (world s) ctx] =>
        destruct (f lib (world s) ctx) as [[[res outlen] written] w1]
    end; simpl;
    rewrite <- ?app_assoc; simpl;
    (destruct (res =? 0); simpl; [reflexivity |]);
    destruct (EVP_CIPHER_CTX_cleanup lib w1 ctx) as [res' w2]; simpl;
    rewrite <- ?app_assoc; simpl;
    destruct (res' =? 1); reflexivity.
Qed.

(** C6.  When the library reports success for the final call and for the
    cleanup, [Ciphers.finalize_encrypt_ctx] and
    [Ciphers.finalize_decrypt_ctx] return; they have asked [ffi.new] for exactly [block_size] bytes, the result
    is [buf[:outlen]], of at most [block_size] bytes and exactly the
    [outlen] bytes written when [outlen] lies within the block, and
    [EVP_CIPHER_CTX_cleanup] was their last call.  Conversely no result is
    returned without that cleanup call. *)
Theorem finalize_buffer_tail_cleanup {W : Type} (lib : Lib W) (d : Direction)
    (s : State W) (ctx : ptr) (res outlen : Z) (written : bytes) (w1 w2 : W) :
  let block_size := EVP_CIPHER_CTX_block_size lib (world s) ctx in
  EVP_Final_ex lib d (world s) ctx = (res, outlen, written, w1) ->
  EVP_CIPHER_CTX_cleanup lib w1 ctx = (1, w2) ->
  0 <= block_size ->
  res <> 0 ->
  (exists out s',
     finalize_ctx_for lib d ctx s = (Ok out, s') /\
     calls s' = calls s ++ [Call.CIPHER_CTX_block_size ctx;
                            Call.ffi_new_uchar_array block_size;
                            Call.ffi_new_int;
                            Call_Final_ex d ctx;
                            Call.CIPHER_CTX_cleanup ctx] /\
     world s' = w2 /\
     out = slice_to (store (zeroed block_size) written) outlen /\
     0 <= len out <= block_size /\
     (0 <= outlen <= block_size ->
      len out = outlen /\
      (outlen <= len written -> out = firstn (Z.to_nat outlen) written))) /\
  (forall t out t',
     finalize_ctx_for lib d ctx t = (Ok out, t') ->
     last (calls t') = Some (Call.CIPHER_CTX_cleanup ctx) /\
     0 <= len out <= EVP_CIPHER_CTX_block_size lib (world t) ctx).
Proof.
  intros block_size Hfinal Hclean Hbs Hres. split.
  - rewrite finalize_ctx_for_eq. fold block_size. simpl.
    destruct (Z.ltb_spec block_size 0) as [| _]; [lia |].
    rewrite Hfinal. destruct (Z.eqb_spec res 0) as [| _]; [contradiction |].
    rewrite Hclean. simpl.
    eexists. eexists. split; [reflexivity |].
    unfold after. simpl. rewrite <- ?app_assoc. simpl.
    split; [reflexivity |]. split; [reflexivity |]. split; [reflexivity |].
    assert (Hlen : Z.of_nat (length (store (zeroed block_size) written))
                   = block_size).
    { rewrite length_store, length_zeroed. lia. }
    split.
    + unfold len.
      pose proof (length_slice_to (store (zeroed block_size) written) outlen).
      lia.
    + intros Hfit.
      destruct (slice_to_within (store (zeroed block_size) written) outlen)
        as [Heq Hl]; [lia |].
      split; [exact Hl |].
      intros Hw. rewrite Heq. apply store_prefix.
      * unfold len in Hw. lia.
      * rewrite length_zeroed. lia.
  - intros t out t'. rewrite finalize_ctx_for_eq. simpl.
    set (bs := EVP_CIPHER_CTX_block_size lib (world t) ctx).
    destruct (Z.ltb_spec bs 0) as [| Hpos]; [discriminate |].
    destruct (EVP_Final_ex lib d (world t) ctx) as [[[r o] wr] u1].
    destruct (r =? 0); [discriminate |].
    destruct (EVP_CIPHER_CTX_cleanup lib u1 ctx) as [r' u2].
    destruct (r' =? 1); [| discriminate].
    intros [= <- <-]. split.
    + unfold after. simpl. apply last_snoc.
    + unfold len.
      pose proof (length_slice_to (store (zeroed bs) wr) o) as Hle.
      rewrite length_store, length_zeroed in Hle. lia.
Qed.

(** Finalizing context 16 of the sample library when no partial block is
    pending: an empty tail, and the context is on the released list. *)
Lemma finalize_buffer_tail_cleanup_witness :
  exists s',
    finalize_ctx_for Sample.lib Encrypt 16 Sample.started = (Ok [], s') /\
    last (calls s') = Some (Call.CIPHER_CTX_cleanup 16) /\
    Sample.released (world s') = [16].
Proof.
  destruct (finalize_buffer_tail_cleanup Sample.lib Encrypt Sample.started 16
              1 0 [] Sample.boot
              {| Sample.next_ptr := 16; Sample.pending := [];
                 Sample.padding := 1; Sample.absorbed := [];
                 Sample.released := [16] |})
    as [(out & s' & Hrun & Hcalls & Hworld & Hout & _) Hconv].
  - reflexivity.
  - reflexivity.
  - vm_compute. discriminate.
  - discriminate.
  - exists s'. destruct (Hconv _ _ _ Hrun) as [Hlast _].
    rewrite Hrun, Hout, Hworld. split; [reflexivity |].
    split; [exact Hlast | reflexivity].
Defined.

(** ** Streaming digest engine: finalize *)

(** [Hashes.finalize_ctx], step by step. *)
Lemma finalize_ctx_eq {W : Type} (lib : Lib W) (ctx : ptr) (digest_size : Z)
    (s : State W) :
  Hashes.finalize_ctx lib ctx digest_size s
  = let s1 := after s (world s) [Call.ffi_new_uchar_array digest_size] in
    if digest_size <? 0 then (Raise ValueError, s1)
    else
      let '(res, written, w1) := EVP_DigestFinal_ex lib (world s) ctx NULL in
      let s2 := after s1 w1 [Call.DigestFinal_ex ctx NULL] in
      if res =? 0 then (Raise AssertionError, s2)
      else
        let '(res', w2) := EVP_MD_CTX_cleanup lib w1 ctx in
        let s3 := after s2 w2 [Call.MD_CTX_cleanup ctx] in
        if res' =? 1
        then (Ok (slice_to (store (zeroed digest_size) written) digest_size), s3)
        else (Raise AssertionError, s3).
Proof.
  unfold Hashes.finalize_ctx. run_monad.
  unfold ffi_new_uchar_array, local, after. simpl.
  destruct (digest_size <? 0); [reflexivity |]. simpl.
  destruct (EVP_DigestFinal_ex lib (world s) ctx NULL) as [[res written] w1].
  simpl. destruct (res =? 0); simpl; [reflexivity |].
  destruct (EVP_MD_CTX_cleanup lib w1 ctx) as [res' w2]. simpl.
  destruct (res' =? 1); reflexivity.
Qed.




(** ** [modes.py] *)

(** C10.  [get_iv_or_nonce] is defined on both classes of [modes.py]: on
    a CBC object it returns the initialization vector the object was
    built with, whatever [api] is; on an ECB object it returns what
    [api.get_null_for_ecb()] returns.  The backend does not go through
    it: the value [Ciphers._create_ctx] selects for such an object is the
    one its interface tests select, and is [NULL] for an object that passes
    neither test, whatever [get_iv_or_nonce] would have returned. *)
Theorem get_iv_or_nonce_parallel_path :
  (forall V (iv : bytes) (api : modes.Api V),
     modes.get_iv_or_nonce (modes.new_CBC iv) api = inl iv) /\
  (forall V (api : modes.Api V),
     modes.get_iv_or_nonce modes.new_ECB api
     = inr (modes.get_null_for_ecb api tt)) /\
  (forall W (lib : Lib W) cipher inst self (s s' : State W) ctx evp iv_nonce,
     Ciphers._create_ctx lib cipher (modes.as_mode inst self) s
     = (Ok (ctx, evp, iv_nonce), s') ->
     selected_iv_nonce (modes.as_mode inst self) = Ok iv_nonce /\
     (inst ModeWithInitializationVector = true ->
      exists iv, self = modes.new_CBC iv /\ iv_nonce = ArgBytes iv) /\
     (inst ModeWithInitializationVector = false ->
      inst ModeWithNonce = false ->
      iv_nonce = ArgNULL)).
Proof.
  split; [reflexivity |]. split; [reflexivity |].
  intros W lib cipher inst self s s' ctx evp iv_nonce Hrun.
  apply _create_ctx_Ok in Hrun
    as (w1 & adapter & name & _ & _ & _ & _ & _ & Hsel & _).
  split; [exact Hsel |].
  unfold selected_iv_nonce in Hsel. simpl in Hsel.
  split.
  - intros Hiv. rewrite Hiv in Hsel.
    destruct self as [iv |]; simpl in Hsel; [| discriminate].
    injection Hsel as <-. eauto.
  - intros Hiv Hn. rewrite Hiv, Hn in Hsel. congruence.
Qed.

(** A CBC object of [modes.py] whose class passes the
    initialization-vector test, and one whose class passes neither. *)
Lemma get_iv_or_nonce_parallel_path_witness :
  (exists iv,
     modes.new_CBC [x01] = modes.new_CBC iv /\ ArgBytes [x01] = ArgBytes iv) /\
  fst (Ciphers._create_ctx Sample.lib Sample.aes128
         (modes.as_mode Sample.bare (modes.new_CBC [x01])) Sample.started)
  = Ok (16, 7, ArgNULL) /\
  modes.get_iv_or_nonce (modes.new_CBC [x01])
    {| modes.get_null_for_ecb := fun _ => NULL |} = inl [x01].
Proof.
  destruct get_iv_or_nonce_parallel_path as (Hcbc & _ & Hbackend).
  split; [| split].
  - assert (Hrun :
      Ciphers._create_ctx Sample.lib Sample.aes128
        (modes.as_mode Sample.with_iv (modes.new_CBC [x01])) Sample.started
      = (Ok (16, 7, ArgBytes [x01]),
         snd (Ciphers._create_ctx Sample.lib Sample.aes128
                (modes.as_mode Sample.with_iv (modes.new_CBC [x01]))
                Sample.started)))
      by (vm_compute; reflexivity).
    destruct (Hbackend _ _ _ _ _ _ _ _ _ _ Hrun) as (_ & Hiv & _).
    apply Hiv. reflexivity.
  - vm_compute. reflexivity.
  - apply Hcbc.
Defined.


(** * Further properties of the binding *)

(** ** Registering adapters *)

Lemma with_registry_id {W : Type} (s : State W) :
  with_registry s (_cipher_registry s) = s.
Proof. destruct s; reflexivity. Qed.

Lemma for_each_app {W A : Type} (l1 l2 : list A) (f : A -> M W unit)
    (s : State W) :
  for_each (l1 ++ l2) f s
  = match for_each l1 f s with
    | (Ok _, s1) => for_each l2 f s1
    | (Raise e, s1) => (Raise e, s1)
    end.
Proof.
  revert s. induction l1 as [| x l1 IH]; intros s; simpl; [reflexivity |].
  unfold mbind, M_bind.
  destruct (f x s) as [[[] | e] s1]; [apply IH | reflexivity].
Qed.

Lemma register_each_ok {W : Type} (rs : list (CipherCls * ModeCls * Adapter))
    (s : State W) :
  NoDup rs.*1 ->
  (forall k, k ∈ rs.*1 -> _cipher_registry s !! k = None) ->
  register_each rs s
  = (Ok tt, with_registry s (list_to_map rs ∪ _cipher_registry s)).
Proof.
  revert s. induction rs as [| [[c m] a] rs IH]; intros s Hnodup Hfree.
  - simpl. rewrite (left_id_L ∅ (∪)), with_registry_id. reflexivity.
  - rewrite fmap_cons in Hnodup. apply NoDup_cons in Hnodup as [Hnotin Hnodup].
    unfold register_each. simpl. unfold mbind, M_bind.
    rewrite register_fresh by (apply Hfree; left).
    fold (with_registry s (<[(c, m) := a]> (_cipher_registry s))).
    fold (@register_each W rs). rewrite IH; [| exact Hnodup |].
    + unfold with_registry. simpl. do 2 f_equal.
      rewrite <- insert_union_l. symmetry.
      apply insert_union_r, not_elem_of_list_to_map_1, Hnotin.
    + intros k Hk. simpl. rewrite lookup_insert_ne.
      * apply Hfree. right. exact Hk.
      * intros <-. contradiction.
Qed.

Lemma register_each_taken {W : Type}
    (pre post : list (CipherCls * ModeCls * Adapter))
    (c : CipherCls) (m : ModeCls) (a : Adapter) (s : State W) :
  NoDup pre.*1 ->
  (forall k, k ∈ pre.*1 -> _cipher_registry s !! k = None) ->
  is_Some (_cipher_registry s !! (c, m)) ->
  register_each (pre ++ (c, m, a) :: post) s
  = (Raise ValueError,
     with_registry s (list_to_map pre ∪ _cipher_registry s)).
Proof.
  intros Hnodup Hfree Htaken.
  unfold register_each. rewrite for_each_app.
  fold (@register_each W pre). rewrite register_each_ok by assumption.
  simpl. unfold mbind, M_bind.
  rewrite register_taken; [reflexivity |].
  simpl. apply lookup_union_is_Some. right. exact Htaken.
Qed.

Lemma register_each_Ok_free {W : Type}
    (rs : list (CipherCls * ModeCls * Adapter)) (s s' : State W) :
  register_each rs s = (Ok tt, s') ->
  forall k, k ∈ rs.*1 -> _cipher_registry s !! k = None.
Proof.
  revert s. induction rs as [| [[c m] a] rs IH]; intros s Hrun k Hk.
  - apply elem_of_nil in Hk as [].
  - unfold register_each in Hrun. simpl in Hrun. unfold mbind, M_bind in Hrun.
    destruct (_cipher_registry s !! (c, m)) as [a0 |] eqn:Hlook.
    + rewrite register_taken in Hrun by (rewrite Hlook; eauto). discriminate.
    + rewrite (register_fresh s c m a Hlook) in Hrun.
      apply elem_of_cons in Hk as [-> | Hk]; [exact Hlook |].
      specialize (IH _ Hrun k Hk). simpl in IH.
      apply lookup_insert_None in IH as [IH _]. exact IH.
Qed.

Lemma for_each_map {W A B : Type} (g : A -> B) (l : list A)
    (f : B -> M W unit) (h : A -> M W unit) (s : State W) :
  (forall x t, f (g x) t = h x t) ->
  for_each (map g l) f s = for_each l h s.
Proof.
  intros Hext. revert s.
  induction l as [| x l IH]; intros s; simpl; [reflexivity |].
  unfold mbind, M_bind. rewrite Hext.
  destruct (h x s) as [[[] | e] s1]; [apply IH | reflexivity].
Qed.

Lemma _register_default_ciphers_each {W : Type} (s : State W) :
  Ciphers._register_default_ciphers s = register_each default_registrations s.
Proof.
  unfold Ciphers._register_default_ciphers, register_each, default_registrations.
  rewrite for_each_app. unfold mbind at 1. unfold M_bind at 1.
  rewrite (for_each_map (fun k => (k, sized_adapter)) _ _
             (fun '(c, m) => Ciphers.register_cipher_adapter c m sized_adapter))
    by (intros [c m] t; reflexivity).
  destruct (for_each _ _ s) as [[[] | e] s1]; [| reflexivity].
  rewrite (for_each_map (fun m => (TripleDES, m, des_ede3_adapter)) _ _
             (fun m => Ciphers.register_cipher_adapter TripleDES m
                         des_ede3_adapter))
    by (intros m t; reflexivity).
  reflexivity.
Qed.

Lemma NoDup_default_registrations : NoDup default_registrations.*1.
Proof. apply (bool_decide_unpack _). vm_compute. reflexivity. Qed.

Lemma lookup_default_registrations (c : CipherCls) (m : ModeCls) :
  (list_to_map default_registrations : gmap (CipherCls * ModeCls) Adapter)
    !! (c, m)
  = default_adapter c m.
Proof. destruct c, m; vm_compute; reflexivity. Qed.

Lemma elem_of_default_registrations (c : CipherCls) (m : ModeCls) :
  (c, m) ∈ default_registrations.*1 <-> is_Some (default_adapter c m).
Proof.
  rewrite <- lookup_default_registrations.
  rewrite <- not_eq_None_Some.
  rewrite <- (not_elem_of_list_to_map (M := gmap (CipherCls * ModeCls))).
  split; [auto |]. intros H. destruct (decide ((c, m) ∈ default_registrations.*1));
    [assumption | contradiction].
Qed.

(** X1.  Registering an adapter for a pair that has none succeeds without
    any call into the library; afterwards the lookup for a cipher and a
    mode of these classes yields that adapter, and every other pair is
    as it was. *)
Theorem register_then_lookup {W : Type} (s : State W)
    (c : CipherCls) (m : ModeCls) (a : Adapter) :
  _cipher_registry s !! (c, m) = None ->
  exists s',
    Ciphers.register_cipher_adapter c m a s = (Ok tt, s') /\
    world s' = world s /\ calls s' = calls s /\
    (forall cipher mode,
       cipher_cls cipher = c -> mode_cls mode = m ->
       Ciphers.registry_getitem cipher mode s' = (Ok a, s')) /\
    (forall k, k <> (c, m) ->
       _cipher_registry s' !! k = _cipher_registry s !! k).
Proof.
  intros Hfree. eexists. split; [apply register_fresh, Hfree |].
  simpl. split; [reflexivity |]. split; [reflexivity |]. split.
  - intros cipher mode <- <-.
    unfold Ciphers.registry_getitem, get_registry. run_monad.
    rewrite lookup_insert_eq. reflexivity.
  - intros k Hk. apply lookup_insert_ne. congruence.
Qed.

(** Registering (TripleDES, ECB), which the defaults leave out. *)
Lemma register_then_lookup_witness :
  exists s',
    Ciphers.register_cipher_adapter TripleDES ECB des_ede3_adapter Sample.started
    = (Ok tt, s') /\
    Ciphers.registry_getitem Sample.tdes_no_key Sample.ecb s'
    = (Ok des_ede3_adapter, s') /\
    _cipher_registry s' !! (AES, CBC) = Some sized_adapter.
Proof.
  destruct (register_then_lookup Sample.started TripleDES ECB des_ede3_adapter)
    as (s' & Hrun & _ & _ & Hget & Hframe).
  - vm_compute. reflexivity.
  - exists s'. split; [exact Hrun |]. split.
    + apply Hget; reflexivity.
    + rewrite Hframe by discriminate. vm_compute. reflexivity.
Defined.

(** X2.  A pair without adapter is reported unsupported without asking
    the library; once an adapter is registered for it, the same query
    asks the library for the name the adapter builds and reports its
    answer. *)
Theorem register_then_supported {W : Type} (lib : Lib W) (s : State W)
    (cipher : Cipher) (mode : Mode) (a : Adapter) (name : bytes) :
  _cipher_registry s !! (cipher_cls cipher, mode_cls mode) = None ->
  native_name a cipher mode = Ok name ->
  Ciphers.supported lib cipher mode s = (Ok false, s) /\
  exists s1,
    Ciphers.register_cipher_adapter (cipher_cls cipher) (mode_cls mode) a s
    = (Ok tt, s1) /\
    Ciphers.supported lib cipher mode s1
    = (Ok (negb (NULL =? EVP_get_cipherbyname lib (world s) name)),
       after s1 (world s) [Call.get_cipherbyname name]).
Proof.
  intros Hfree Hname.
  split; [apply Ciphers_supported_unregistered, Hfree |].
  eexists. split; [apply register_fresh, Hfree |].
  erewrite Ciphers_supported_registered; [reflexivity | | exact Hname].
  simpl. apply lookup_insert_eq.
Qed.

(** (TripleDES, CTR) on the sample library, registered with the key-size
    template: the name ["tripledes-0-ctr"] is not one the library knows. *)
Lemma register_then_supported_witness :
  fst (Ciphers.supported Sample.lib Sample.tdes_no_key (Sample.ctr [])
         Sample.started) = Ok false /\
  fst (Ciphers.supported Sample.lib Sample.tdes_no_key (Sample.ctr [])
         (snd (Ciphers.register_cipher_adapter TripleDES CTR sized_adapter
                 Sample.started))) = Ok false.
Proof.
  destruct (register_then_supported Sample.lib Sample.started
              Sample.tdes_no_key (Sample.ctr []) sized_adapter
              (list_byte_of_string "tripledes-0-ctr"))
    as (Hbefore & s1 & Hreg & Hafter).
  - vm_compute. reflexivity.
  - vm_compute. reflexivity.
  - split; [rewrite Hbefore; reflexivity |].
    simpl in Hreg. rewrite Hreg. simpl. rewrite Hafter. reflexivity.
Defined.

(** X3.  [_register_default_ciphers] succeeds exactly when none of its
    thirteen pairs is registered yet; it then adds the thirteen default
    adapters and leaves every other registration, the native world and
    the call log as they were. *)
Theorem default_registration_needs_free_pairs {W : Type} (s : State W) :
  ((exists s', Ciphers._register_default_ciphers s = (Ok tt, s')) <->
   (forall c m, is_Some (default_adapter c m) ->
                _cipher_registry s !! (c, m) = None)) /\
  (forall s',
     Ciphers._register_default_ciphers s = (Ok tt, s') ->
     world s' = world s /\ calls s' = calls s /\
     forall c m,
       _cipher_registry s' !! (c, m)
       = match default_adapter c m with
         | Some a => Some a
         | None => _cipher_registry s !! (c, m)
         end).
Proof.
  assert (Hok : (forall c m, is_Some (default_adapter c m) ->
                             _cipher_registry s !! (c, m) = None) ->
                Ciphers._register_default_ciphers s
                = (Ok tt, with_registry s (list_to_map default_registrations
                                           ∪ _cipher_registry s))).
  { intros Hfree. rewrite _register_default_ciphers_each.
    apply register_each_ok; [apply NoDup_default_registrations |].
    intros [c m] Hk. apply Hfree, elem_of_default_registrations, Hk. }
  assert (Hinv : forall s', Ciphers._register_default_ciphers s = (Ok tt, s') ->
                 forall c m, is_Some (default_adapter c m) ->
                             _cipher_registry s !! (c, m) = None).
  { intros s' Hrun c m Hdef. rewrite _register_default_ciphers_each in Hrun.
    apply (register_each_Ok_free _ _ _ Hrun).
    apply elem_of_default_registrations, Hdef. }
  split.
  - split; [intros [s' Hrun]; exact (Hinv s' Hrun) | eauto].
  - intros s' Hrun. rewrite (Hok (Hinv s' Hrun)) in Hrun.
    injection Hrun as <-. simpl.
    split; [reflexivity |]. split; [reflexivity |].
    intros c m. rewrite lookup_union, lookup_default_registrations.
    destruct (default_adapter c m); simpl.
    + destruct (_cipher_registry s !! (c, m)); reflexivity.
    + destruct (_cipher_registry s !! (c, m)); reflexivity.
Qed.

(** On a registry that only holds an adapter for (TripleDES, ECB), the
    defaults are added and that adapter stays. *)
Lemma default_registration_needs_free_pairs_witness :
  exists s',
    Ciphers._register_default_ciphers
      (with_registry Sample.fresh {[ (TripleDES, ECB) := sized_adapter ]})
    = (Ok tt, s') /\
    _cipher_registry s' !! (TripleDES, ECB) = Some sized_adapter /\
    _cipher_registry s' !! (TripleDES, CBC) = Some des_ede3_adapter.
Proof.
  destruct (default_registration_needs_free_pairs
              (with_registry Sample.fresh {[ (TripleDES, ECB) := sized_adapter ]}))
    as [[_ Hrun] Hpost].
  destruct Hrun as [s' Hrun].
  - intros c m Hdef. destruct c, m; vm_compute; try reflexivity.
    destruct Hdef as [x Hx]. discriminate Hx.
  - exists s'. split; [exact Hrun |].
    destruct (Hpost s' Hrun) as (_ & _ & Hlook).
    split; rewrite Hlook; vm_compute; reflexivity.
Defined.

(** X4.  When the first default pair that is already registered is the
    [i]-th in registration order, [_register_default_ciphers] raises
    [ValueError] and does not undo its work: the [i] pairs before it
    have been registered. *)
Theorem default_registration_stops_midway {W : Type} (s : State W) (i : nat)
    (c : CipherCls) (m : ModeCls) (a : Adapter) :
  default_registrations !! i = Some (c, m, a) ->
  is_Some (_cipher_registry s !! (c, m)) ->
  (forall k, k ∈ (take i default_registrations).*1 ->
             _cipher_registry s !! k = None) ->
  Ciphers._register_default_ciphers s
  = (Raise ValueError,
     with_registry s (list_to_map (take i default_registrations)
                      ∪ _cipher_registry s)).
Proof.
  intros Hi Htaken Hfree.
  rewrite _register_default_ciphers_each.
  rewrite <- (take_drop_middle default_registrations i (c, m, a) Hi) at 1.
  apply register_each_taken; [| exact Hfree | exact Htaken].
  pose proof NoDup_default_registrations as Hnodup.
  rewrite <- (take_drop i default_registrations), fmap_app in Hnodup.
  apply NoDup_app in Hnodup as [Hpre _]. exact Hpre.
Qed.

(** On a registry that only holds (AES, ECB), the third pair in order:
    the call fails, yet (AES, CBC) and (AES, CTR) are registered now. *)
Lemma default_registration_stops_midway_witness :
  let s := with_registry Sample.fresh {[ (AES, ECB) := des_ede3_adapter ]} in
  fst (Ciphers._register_default_ciphers s) = Raise ValueError /\
  _cipher_registry (snd (Ciphers._register_default_ciphers s)) !! (AES, CTR)
  = Some sized_adapter /\
  _cipher_registry (snd (Ciphers._register_default_ciphers s)) !! (AES, OFB)
  = None.
Proof.
  intros s.
  rewrite (default_registration_stops_midway s 2 AES ECB sized_adapter).
  - vm_compute. repeat split; reflexivity.
  - reflexivity.
  - vm_compute. eauto.
  - intros [c0 m0] Hk. vm_compute in Hk.
    apply elem_of_cons in Hk as [Hk | Hk];
      [injection Hk as -> ->; vm_compute; reflexivity |].
    apply elem_of_cons in Hk as [Hk | Hk];
      [injection Hk as -> ->; vm_compute; reflexivity |].
    apply elem_of_nil in Hk as [].
Defined.

(** ** Support queries and context creation *)

Lemma Ciphers_init_eq {W : Type} (s : State W) :
  Ciphers.__init__ s
  = (Ok tt, with_registry s (list_to_map default_registrations)).
Proof. vm_compute. reflexivity. Qed.

(** X5.  Both support queries only read: whatever they return or raise,
    the registry and the native world are as before, and the library has
    been asked at most one thing, the lookup of one name. *)
Theorem support_queries_read_only {W : Type} (lib : Lib W) (s : State W)
    (cipher : Cipher) (mode : Mode) (hash_cls : Hash) :
  let s1 := snd (Ciphers.supported lib cipher mode s) in
  let s2 := snd (Hashes.supported lib hash_cls s) in
  (_cipher_registry s1 = _cipher_registry s /\ world s1 = world s /\
   (calls s1 = calls s \/
    exists name, calls s1 = calls s ++ [Call.get_cipherbyname name])) /\
  (_cipher_registry s2 = _cipher_registry s /\ world s2 = world s /\
   (calls s2 = calls s \/
    exists name, calls s2 = calls s ++ [Call.get_digestbyname name])).
Proof.
  split.
  - unfold Ciphers.supported, try_except, Ciphers.registry_getitem,
      get_registry. run_monad.
    destruct (_cipher_registry s !! (cipher_cls cipher, mode_cls mode))
      as [a |]; simpl; [| auto].
    rewrite GetCipherByName_call_name.
    destruct (native_name a cipher mode) as [name | e]; simpl; [| auto].
    split; [reflexivity |]. split; [reflexivity |]. right. eauto.
  - unfold Hashes.supported, Hashes.get_digestbyname. run_monad.
    destruct (encode_ascii (hash_name hash_cls)) as [name | e]; simpl; [| auto].
    split; [reflexivity |]. split; [reflexivity |]. right. eauto.
Qed.

(** X6.  Right after [Ciphers.__init__], for every library, cipher and
    mode: TripleDES is supported only in CBC, CFB and OFB mode, and then
    exactly when the library knows ["des-ede3-<mode>"]; AES and Camellia
    are supported in each of the five modes exactly when the library
    knows the lowercased ["<name>-<key bits>-<mode>"]. *)
Theorem supported_in_fresh_backend {W : Type} (lib : Lib W) (s : State W)
    (cipher : Cipher) (mode : Mode) :
  fst (Ciphers.supported lib cipher mode (snd (Ciphers.__init__ s)))
  = Ok match cipher_cls cipher, mode_cls mode with
       | TripleDES, (CBC | CFB | OFB) =>
           knows_cipher lib (world s)
             (lower ("des-ede3-" +:+ mode_name (mode_cls mode)))
       | TripleDES, _ => false
       | _, _ =>
           knows_cipher lib (world s)
             (lower (cipher_name (cipher_cls cipher) +:+ "-" +:+
                     str_of_int (key_size cipher) +:+ "-" +:+
                     mode_name (mode_cls mode)))
       end.
Proof.
  rewrite Ciphers_init_eq. cbn [snd].
  set (s0 := with_registry s (list_to_map default_registrations)).
  assert (Hlook : forall c m,
            _cipher_registry s0 !! (c, m) = default_adapter c m)
    by (intros c m; apply lookup_default_registrations).
  assert (Hworld : world s0 = world s) by reflexivity.
  clearbody s0. unfold knows_cipher. rewrite <- Hworld.
  destruct cipher as [c k], mode as [m inst iv n].
  pose proof (Hlook c m) as Hl.
  destruct c, m; simpl in Hl;
    match goal with
    | |- context [Ciphers.supported lib ?ci ?mo s0] =>
        first
          [ rewrite (Ciphers_supported_unregistered lib s0 ci mo Hl)
          | rewrite (Ciphers_supported_registered lib s0 ci mo _ _ Hl
                       (native_name_sized ci mo))
          | rewrite (Ciphers_supported_registered lib s0 ci mo _ _ Hl
                       (native_name_des_ede3 ci mo)) ]
    end; reflexivity.
Qed.

(** X7.  For a pair without adapter the support query answers [False],
    whereas [create_encrypt_ctx] and [create_decrypt_ctx] raise
    [KeyError]; by then a native context has been allocated and handed
    to the collector, and nothing else has been called. *)
Theorem create_without_adapter_raises {W : Type} (lib : Lib W) (d : Direction)
    (s : State W) (cipher : Cipher) (mode : Mode) (ctx : ptr) (w1 : W) :
  _cipher_registry s !! (cipher_cls cipher, mode_cls mode) = None ->
  EVP_CIPHER_CTX_new lib (world s) = (ctx, w1) ->
  Ciphers.supported lib cipher mode s = (Ok false, s) /\
  create_ctx_for lib d cipher mode s
  = (Raise KeyError,
     after s w1 [Call.CIPHER_CTX_new; Call.ffi_gc ctx EVP_CIPHER_CTX_free]).
Proof.
  intros Hnone Hnew.
  split; [apply Ciphers_supported_unregistered, Hnone |].
  rewrite create_ctx_for_eq, _create_ctx_eq, Hnew, Hnone. reflexivity.
Qed.

(** TripleDES in ECB mode in a started process. *)
Lemma create_without_adapter_raises_witness :
  fst (create_ctx_for Sample.lib Encrypt (Sample.tdes [x01]) Sample.ecb
         Sample.started) = Raise KeyError /\
  Sample.next_ptr
    (world (snd (create_ctx_for Sample.lib Encrypt (Sample.tdes [x01])
                   Sample.ecb Sample.started))) = 17.
Proof.
  destruct (create_without_adapter_raises Sample.lib Encrypt Sample.started
              (Sample.tdes [x01]) Sample.ecb 16
              (snd (Sample.alloc Sample.boot))) as [_ Hcreate].
  - vm_compute. reflexivity.
  - reflexivity.
  - rewrite Hcreate. split; reflexivity.
Defined.

(** X8.  When the pair has an adapter but the library answers [NULL] for
    the name it builds, [create_encrypt_ctx] and [create_decrypt_ctx]
    raise [AssertionError] right after the lookup: no init call is
    made. *)
Theorem create_unknown_name_raises {W : Type} (lib : Lib W) (d : Direction)
    (s : State W) (cipher : Cipher) (mode : Mode) (a : Adapter)
    (name : bytes) (ctx : ptr) (w1 : W) :
  _cipher_registry s !! (cipher_cls cipher, mode_cls mode) = Some a ->
  native_name a cipher mode = Ok name ->
  EVP_CIPHER_CTX_new lib (world s) = (ctx, w1) ->
  EVP_get_cipherbyname lib w1 name = NULL ->
  create_ctx_for lib d cipher mode s
  = (Raise AssertionError,
     after s w1 [Call.CIPHER_CTX_new; Call.ffi_gc ctx EVP_CIPHER_CTX_free;
                 Call.get_cipherbyname name]).
Proof.
  intros Hsome Hname Hnew Hnull.
  rewrite create_ctx_for_eq, _create_ctx_eq, Hnew, Hsome, Hname. simpl.
  rewrite Hnull. simpl. unfold after. simpl.
  rewrite <- app_assoc. reflexivity.
Qed.

(** AES with a 7-byte key in CBC mode: the sample library has no
    ["aes-56-cbc"]. *)
Lemma create_unknown_name_raises_witness :
  fst (create_ctx_for Sample.lib Decrypt
         {| cipher_cls := AES; key := repeat x00 7 |} (Sample.cbc [])
         Sample.started) = Raise AssertionError.
Proof.
  rewrite (create_unknown_name_raises Sample.lib Decrypt Sample.started
             {| cipher_cls := AES; key := repeat x00 7 |} (Sample.cbc [])
             sized_adapter (list_byte_of_string "aes-56-cbc") 16
             (snd (Sample.alloc Sample.boot))).
  - reflexivity.
  - vm_compute. reflexivity.
  - vm_compute. reflexivity.
  - reflexivity.
  - reflexivity.
Defined.

(** X9.  A mode object that passes both interface tests is treated as a
    mode with an initialization vector: once the adapter of the pair has
    resolved to a cipher the library knows, [create_encrypt_ctx] and
    [create_decrypt_ctx] hand its [initialization_vector] attribute to
    the init call, whatever its [nonce]; and if the object has no such
    attribute they raise [AttributeError] right after the lookup,
    without an init call, although a nonce may be there. *)
Theorem iv_test_takes_precedence {W : Type} (lib : Lib W) (d : Direction)
    (s : State W) (cipher : Cipher) (mode : Mode) (a : Adapter)
    (name : bytes) (ctx : ptr) (w1 : W) :
  isinstance mode ModeWithInitializationVector = true ->
  isinstance mode ModeWithNonce = true ->
  _cipher_registry s !! (cipher_cls cipher, mode_cls mode) = Some a ->
  native_name a cipher mode = Ok name ->
  EVP_CIPHER_CTX_new lib (world s) = (ctx, w1) ->
  EVP_get_cipherbyname lib w1 name <> NULL ->
  let evp := EVP_get_cipherbyname lib w1 name in
  let s1 := after s w1 [Call.CIPHER_CTX_new;
                        Call.ffi_gc ctx EVP_CIPHER_CTX_free;
                        Call.get_cipherbyname name] in
  match initialization_vector mode with
  | Some v =>
      exists rest,
        calls (snd (create_ctx_for lib d cipher mode s))
        = calls s1
          ++ Call_Init_ex d ctx evp NULL (key cipher) (ArgBytes v) :: rest
  | None => create_ctx_for lib d cipher mode s = (Raise AttributeError, s1)
  end.
Proof.
  intros Hiv _ Hlook Hname Hnew Hevp evp s1.
  pose proof (_create_ctx_resolved lib cipher mode s a name ctx w1
                Hlook Hname Hnew Hevp) as Hrun.
  unfold selected_iv_nonce in Hrun. rewrite Hiv in Hrun.
  destruct (initialization_vector mode) as [v |].
  - exact (create_ctx_for_init_call lib d cipher mode s s1 _ _ _ Hrun).
  - rewrite create_ctx_for_eq, Hrun. reflexivity.
Qed.

(** An object passing both tests that carries an initialization vector
    and a nonce, and one that carries a nonce only. *)
Lemma iv_test_takes_precedence_witness :
  In (Call.EncryptInit_ex 16 7 NULL (key Sample.aes128) (ArgBytes [x01]))
     (calls (snd (create_ctx_for Sample.lib Encrypt Sample.aes128
                    (Sample.both [x01] [x02]) Sample.started))) /\
  fst (create_ctx_for Sample.lib Encrypt Sample.aes128
         {| mode_cls := CBC; isinstance := fun _ => true;
            initialization_vector := None; nonce := Some [x02] |}
         Sample.started) = Raise AttributeError.
Proof.
  split.
  - destruct (iv_test_takes_precedence Sample.lib Encrypt Sample.started
                Sample.aes128 (Sample.both [x01] [x02]) sized_adapter
                (list_byte_of_string "aes-128-cbc") 16
                (snd (Sample.alloc Sample.boot)))
      as [rest Hcalls];
      [reflexivity | reflexivity | vm_compute; reflexivity
      | vm_compute; reflexivity | reflexivity | vm_compute; discriminate |].
    rewrite Hcalls. apply in_app_iff. right. left. reflexivity.
  - rewrite (iv_test_takes_precedence Sample.lib Encrypt Sample.started
               Sample.aes128
               {| mode_cls := CBC; isinstance := fun _ => true;
                  initialization_vector := None; nonce := Some [x02] |}
               sized_adapter (list_byte_of_string "aes-128-cbc") 16
               (snd (Sample.alloc Sample.boot)));
      [reflexivity | reflexivity | reflexivity | vm_compute; reflexivity
      | vm_compute; reflexivity | reflexivity | vm_compute; discriminate].
Defined.

Lemma format_go_observes (fmt : string) (field : option string)
    (c1 c2 : Cipher) (m1 m2 : Mode) :
  cipher_cls c1 = cipher_cls c2 ->
  length (key c1) = length (key c2) ->
  mode_cls m1 = mode_cls m2 ->
  format_go fmt field c1 m1 = format_go fmt field c2 m2.
Proof.
  intros Hc Hk Hm. revert field.
  induction fmt as [| c rest IH]; intros [acc |]; simpl; try reflexivity.
  - destruct (decide (c = "}"%char)); [| apply IH].
    unfold format_field, key_size. rewrite Hc, Hk, Hm, (IH None). reflexivity.
  - destruct (decide (c = "{"%char)); [apply IH |].
    destruct (decide (c = "}"%char)); [reflexivity |].
    rewrite (IH None). reflexivity.
Qed.

(** X10.  For an adapter whose template is formatted from literal text
    and the fields [{cipher.name}], [{cipher.key_size}] and
    [{mode.name}], as both templates of the backend are, the name handed
    to the library depends on the cipher only through its class and the
    length of its key, and on the mode only through its class: another
    key of the same length, another initialization vector or nonce give
    the same lookup and the same answer of [Ciphers.supported]. *)
Theorem name_lookup_ignores_key_material {W : Type} (lib : Lib W)
    (a : Adapter) (c1 c2 : Cipher) (m1 m2 : Mode) (s : State W)
    (name : bytes) :
  cipher_cls c1 = cipher_cls c2 ->
  length (key c1) = length (key c2) ->
  mode_cls m1 = mode_cls m2 ->
  native_name a c1 m1 = Ok name ->
  native_name a c2 m2 = Ok name /\
  GetCipherByName_call lib a c2 m2 s = GetCipherByName_call lib a c1 m1 s /\
  (_cipher_registry s !! (cipher_cls c1, mode_cls m1) = Some a ->
   Ciphers.supported lib c2 m2 s = Ciphers.supported lib c1 m1 s).
Proof.
  intros Hc Hk Hm Hname.
  assert (Hsame : native_name a c2 m2 = Ok name).
  { rewrite <- Hname. unfold native_name, str_format.
    rewrite (format_go_observes _ _ c1 c2 m1 m2 Hc Hk Hm). reflexivity. }
  split; [exact Hsame |]. split.
  - rewrite !GetCipherByName_call_name, Hname, Hsame. reflexivity.
  - intros Hlook.
    rewrite (Ciphers_supported_registered lib s c1 m1 a name Hlook Hname).
    rewrite Hc, Hm in Hlook.
    rewrite (Ciphers_supported_registered lib s c2 m2 a name Hlook Hsame).
    reflexivity.
Qed.

(** Two AES keys of sixteen bytes and two CBC modes with different
    initialization vectors, under the key-size template. *)
Lemma name_lookup_ignores_key_material_witness :
  native_name sized_adapter {| cipher_cls := AES; key := repeat x01 16 |}
    (Sample.cbc [x02])
  = Ok (list_byte_of_string "aes-128-cbc") /\
  Ciphers.supported Sample.lib {| cipher_cls := AES; key := repeat x01 16 |}
    (Sample.cbc [x02]) Sample.started
  = Ciphers.supported Sample.lib Sample.aes128 (Sample.cbc [x03]) Sample.started.
Proof.
  destruct (name_lookup_ignores_key_material Sample.lib sized_adapter
              Sample.aes128 {| cipher_cls := AES; key := repeat x01 16 |}
              (Sample.cbc [x03]) (Sample.cbc [x02]) Sample.started
              (list_byte_of_string "aes-128-cbc"))
    as (Hname & _ & Hsup);
    [reflexivity | reflexivity | reflexivity | vm_compute; reflexivity |].
  split; [exact Hname |]. apply Hsup. vm_compute. reflexivity.
Defined.

(** X11.  A pair the support query accepts gets through the lookups of
    [_create_ctx]: provided allocating a context does not change what the
    library answers for a name, [_create_ctx] returns the freshly
    allocated context, a non-null cipher and the value selected for the
    mode, unless reading the mode attribute fails. *)
Theorem supported_pair_gets_context {W : Type} (lib : Lib W) (s : State W)
    (cipher : Cipher) (mode : Mode) (ctx : ptr) (w1 : W) :
  fst (Ciphers.supported lib cipher mode s) = Ok true ->
  EVP_CIPHER_CTX_new lib (world s) = (ctx, w1) ->
  (forall name,
     EVP_get_cipherbyname lib w1 name = EVP_get_cipherbyname lib (world s) name) ->
  exists evp s',
    evp <> NULL /\
    Ciphers._create_ctx lib cipher mode s
    = (match selected_iv_nonce mode with
       | Ok iv_nonce => Ok (ctx, evp, iv_nonce)
       | Raise e => Raise e
       end, s').
Proof.
  intros Hsup Hnew Hstable. rewrite _create_ctx_eq, Hnew.
  destruct (_cipher_registry s !! (cipher_cls cipher, mode_cls mode))
    as [a |] eqn:Hlook.
  - destruct (native_name a cipher mode) as [name | e] eqn:Hname.
    + rewrite (Ciphers_supported_registered lib s cipher mode a name Hlook Hname)
        in Hsup.
      cbn [fst] in Hsup.
      assert (Hne : EVP_get_cipherbyname lib (world s) name <> NULL).
      { intros Heq. rewrite Heq in Hsup. discriminate. }
      exists (EVP_get_cipherbyname lib w1 name). eexists.
      split; [rewrite Hstable; exact Hne |].
      simpl. rewrite Hstable.
      destruct (Z.eqb_spec (EVP_get_cipherbyname lib (world s) name) NULL)
        as [Heq | _]; [contradiction |].
      destruct (selected_iv_nonce mode); reflexivity.
    + exfalso. revert Hsup.
      unfold Ciphers.supported, try_except, Ciphers.registry_getitem,
        get_registry. run_monad. rewrite Hlook. simpl.
      rewrite GetCipherByName_call_name, Hname. discriminate.
  - rewrite (Ciphers_supported_unregistered lib s cipher mode Hlook) in Hsup.
    discriminate.
Qed.

(** AES-128-CBC in a started process of the sample library. *)
Lemma supported_pair_gets_context_witness :
  exists evp s',
    evp <> NULL /\
    Ciphers._create_ctx Sample.lib Sample.aes128 (Sample.cbc [x01])
      Sample.started
    = (Ok (16, evp, ArgBytes [x01]), s').
Proof.
  destruct (supported_pair_gets_context Sample.lib Sample.started
              Sample.aes128 (Sample.cbc [x01]) 16
              (snd (Sample.alloc Sample.boot)))
    as (evp & s' & Hevp & Hrun).
  - vm_compute. reflexivity.
  - reflexivity.
  - intros name. reflexivity.
  - exists evp, s'. split; [exact Hevp | exact Hrun].
Defined.

(** ** Failures while streaming *)

(** X12.  When the library reports failure for an update call,
    [update_encrypt_ctx] and [update_decrypt_ctx] raise
    [AssertionError] and return no bytes, although the chunk has been
    handed to the library and the native world has moved on. *)
Theorem update_failure_raises {W : Type} (lib : Lib W) (d : Direction)
    (s : State W) (ctx : ptr) (data : bytes)
    (outlen : Z) (written : bytes) (w1 : W) :
  let n := len data + EVP_CIPHER_CTX_block_size lib (world s) ctx - 1 in
  EVP_Update lib d (world s) ctx data (len data) = (0, outlen, written, w1) ->
  0 <= n ->
  update_ctx_for lib d ctx data s
  = (Raise AssertionError,
     after s w1 [Call.CIPHER_CTX_block_size ctx; Call.ffi_new_uchar_array n;
                 Call.ffi_new_int; Call_Update d ctx data (len data)]).
Proof.
  intros n Hupd Hn.
  assert (Hnew : (n <? 0) = false) by (apply Z.ltb_ge; exact Hn).
  rewrite update_ctx_for_eq. cbv zeta. fold n. rewrite Hnew, Hupd. simpl.
  unfold after. simpl. rewrite <- app_assoc. reflexivity.
Qed.

(** One byte fed to a library whose update calls fail. *)
Lemma update_failure_raises_witness :
  fst (update_ctx_for Sample.broken Encrypt 16 [x01] Sample.started)
  = Raise AssertionError.
Proof.
  rewrite (update_failure_raises Sample.broken Encrypt Sample.started 16 [x01]
             0 [] Sample.boot).
  - reflexivity.
  - reflexivity.
  - vm_compute. discriminate.
Defined.

(** X13.  On its failure paths [finalize_encrypt_ctx] and
    [finalize_decrypt_ctx] raise [AssertionError]: when the final call
    reports failure, [EVP_CIPHER_CTX_cleanup] is never called; when the
    final call succeeds but the cleanup does not return 1, the tail the
    library produced is lost. *)
Theorem finalize_failure_paths {W : Type} (lib : Lib W) (d : Direction)
    (s : State W) (ctx : ptr) (res outlen : Z) (written : bytes) (w1 : W) :
  let block_size := EVP_CIPHER_CTX_block_size lib (world s) ctx in
  EVP_Final_ex lib d (world s) ctx = (res, outlen, written, w1) ->
  0 <= block_size ->
  (res = 0 ->
   finalize_ctx_for lib d ctx s
   = (Raise AssertionError,
      after s w1 [Call.CIPHER_CTX_block_size ctx;
                  Call.ffi_new_uchar_array block_size;
                  Call.ffi_new_int; Call_Final_ex d ctx])) /\
  (res <> 0 ->
   forall res' w2,
     EVP_CIPHER_CTX_cleanup lib w1 ctx = (res', w2) ->
     res' <> 1 ->
     finalize_ctx_for lib d ctx s
     = (Raise AssertionError,
        after s w2 [Call.CIPHER_CTX_block_size ctx;
                    Call.ffi_new_uchar_array block_size;
                    Call.ffi_new_int; Call_Final_ex d ctx;
                    Call.CIPHER_CTX_cleanup ctx])).
Proof.
  intros block_size Hfinal Hbs.
  assert (Hnew : (block_size <? 0) = false) by (apply Z.ltb_ge; exact Hbs).
  split.
  - intros ->. rewrite finalize_ctx_for_eq. cbv zeta. fold block_size.
    rewrite Hnew, Hfinal. simpl.
    unfold after. simpl. rewrite <- app_assoc. reflexivity.
  - intros Hres res' w2 Hclean Hres'.
    rewrite finalize_ctx_for_eq. cbv zeta. fold block_size.
    rewrite Hnew, Hfinal, Hclean.
    destruct (Z.eqb_spec res 0) as [| _]; [contradiction |].
    destruct (Z.eqb_spec res' 1) as [| _]; [contradiction |].
    unfold after. simpl. rewrite <- !app_assoc. reflexivity.
Qed.

(** Finalizing with a byte still pending: the sample library refuses, and
    the context is not on the released list. *)
Lemma finalize_failure_paths_witness :
  fst (finalize_ctx_for Sample.lib Encrypt 16 Sample.midblock)
  = Raise AssertionError /\
  Sample.released
    (world (snd (finalize_ctx_for Sample.lib Encrypt 16 Sample.midblock))) = [] /\
  fst (finalize_ctx_for Sample.broken Decrypt 16 Sample.started)
  = Raise AssertionError.
Proof.
  destruct (finalize_failure_paths Sample.lib Encrypt Sample.midblock 16
              0 0 [] (Sample.pending_one x01)) as [Hfinal _];
    [reflexivity | vm_compute; discriminate |].
  destruct (finalize_failure_paths Sample.broken Decrypt Sample.started 16
              1 0 [] Sample.boot) as [_ Hclean];
    [reflexivity | vm_compute; discriminate |].
  rewrite (Hfinal eq_refl).
  rewrite (Hclean ltac:(discriminate) 0 Sample.boot eq_refl ltac:(discriminate)).
  repeat split; reflexivity.
Defined.

(** X14.  When the library, having written within the array, reports an
    [outlen] that reaches or exceeds its length, [update_encrypt_ctx]
    and [update_decrypt_ctx] return the whole array:
    [len(data) + block_size - 1] bytes, the ones the library wrote
    followed by the zero bytes of the allocation. *)
Theorem update_output_capped_by_array {W : Type} (lib : Lib W) (d : Direction)
    (s : State W) (ctx : ptr) (data : bytes)
    (res outlen : Z) (written : bytes) (w1 : W) :
  let n := len data + EVP_CIPHER_CTX_block_size lib (world s) ctx - 1 in
  EVP_Update lib d (world s) ctx data (len data) = (res, outlen, written, w1) ->
  0 <= n ->
  res <> 0 ->
  written_within written n ->
  n <= outlen ->
  exists out s',
    update_ctx_for lib d ctx data s = (Ok out, s') /\
    len out = n /\
    out = written ++ zeroed (n - len written).
Proof.
  intros n Hupd Hn Hres Hwithin Hout.
  assert (Hnew : (n <? 0) = false) by (apply Z.ltb_ge; exact Hn).
  assert (Hlen : Z.of_nat (length (store (zeroed n) written)) = n).
  { rewrite length_store, length_zeroed. lia. }
  assert (Hslice : slice_to (store (zeroed n) written) outlen
                   = store (zeroed n) written).
  { unfold slice_to. destruct (Z.ltb_spec outlen 0) as [| _]; [lia |].
    rewrite Z.min_r by lia. rewrite Nat2Z.id. apply firstn_all. }
  rewrite update_ctx_for_eq. cbv zeta. fold n. rewrite Hnew, Hupd.
  destruct (Z.eqb_spec res 0) as [| _]; [contradiction |].
  rewrite Hslice. eexists. eexists. split; [reflexivity |].
  split; [exact Hlen |]. apply store_zeroed_within. exact Hwithin.
Qed.

(** Two bytes fed to a library that writes four and reports six: the
    five bytes of the array come back. *)
Lemma update_output_capped_by_array_witness :
  fst (update_ctx_for Sample.overlong Encrypt 16 [x01; x02] Sample.started)
  = Ok [x01; x02; x01; x02; x00].
Proof.
  destruct (update_output_capped_by_array Sample.overlong Encrypt
              Sample.started 16 [x01; x02] 1 6 [x01; x02; x01; x02] Sample.boot)
    as (out & s' & Hrun & _ & Hout).
  - reflexivity.
  - vm_compute. discriminate.
  - discriminate.
  - vm_compute. discriminate.
  - vm_compute. discriminate.
  - rewrite Hrun, Hout. reflexivity.
Defined.

(** ** Streaming digest engine *)

(** [Hashes.create_ctx], step by step. *)
Lemma create_ctx_eq {W : Type} (lib : Lib W) (hashobject : Hash) (s : State W) :
  Hashes.create_ctx lib hashobject s
  = let '(ctx, w1) := EVP_MD_CTX_create lib (world s) in
    let s1 := after s w1 [Call.MD_CTX_create; Call.ffi_gc ctx EVP_MD_CTX_destroy] in
    match encode_ascii (hash_name hashobject) with
    | Raise e => (Raise e, s1)
    | Ok name =>
        let evp_md := EVP_get_digestbyname lib w1 name in
        let s2 := after s1 w1 [Call.get_digestbyname name] in
        if evp_md =? NULL then (Raise AssertionError, s2)
        else
          let '(res, w2) := EVP_DigestInit_ex lib w1 ctx evp_md NULL in
          let s3 := after s2 w2 [Call.DigestInit_ex ctx evp_md NULL] in
          if res =? 0 then (Raise AssertionError, s3) else (Ok ctx, s3)
    end.
Proof.
  unfold Hashes.create_ctx, Hashes.get_digestbyname, ffi_gc, after. run_monad.
  destruct (EVP_MD_CTX_create lib (world s)) as [ctx w1]. simpl.
  rewrite <- app_assoc. simpl.
  destruct (encode_ascii (hash_name hashobject)) as [name | e]; [| reflexivity].
  simpl. destruct (EVP_get_digestbyname lib w1 name =? NULL); simpl;
    [reflexivity |].
  destruct (EVP_DigestInit_ex lib w1 ctx (EVP_get_digestbyname lib w1 name) NULL)
    as [res w2]. simpl.
  destruct (res =? 0); reflexivity.
Qed.

(** X15.  [Hashes.create_ctx] agrees with [Hashes.supported], provided
    allocating a context does not change what the library answers for a
    digest name: for a hash the query rejects, it raises
    [AssertionError] after the lookup and never calls the init function;
    for a hash the query accepts, it returns the allocated context
    exactly when the init call succeeds. *)
Theorem digest_create_follows_support {W : Type} (lib : Lib W) (s : State W)
    (hashobject : Hash) (ctx : ptr) (w1 : W) :
  EVP_MD_CTX_create lib (world s) = (ctx, w1) ->
  (forall name,
     EVP_get_digestbyname lib w1 name = EVP_get_digestbyname lib (world s) name) ->
  (fst (Hashes.supported lib hashobject s) = Ok false ->
   Hashes.create_ctx lib hashobject s
   = (Raise AssertionError,
      after s w1 [Call.MD_CTX_create; Call.ffi_gc ctx EVP_MD_CTX_destroy;
                  Call.get_digestbyname
                    (list_byte_of_string (hash_name hashobject))])) /\
  (fst (Hashes.supported lib hashobject s) = Ok true ->
   exists evp_md s',
     evp_md <> NULL /\
     Hashes.create_ctx lib hashobject s
     = (if fst (EVP_DigestInit_ex lib w1 ctx evp_md NULL) =? 0
        then Raise AssertionError else Ok ctx, s')).
Proof.
  intros Hnew Hstable.
  assert (Hsup : forall b, fst (Hashes.supported lib hashobject s) = Ok b ->
            encode_ascii (hash_name hashobject)
            = Ok (list_byte_of_string (hash_name hashobject)) /\
            (EVP_get_digestbyname lib w1
               (list_byte_of_string (hash_name hashobject)) =? NULL) = negb b).
  { intros b. unfold Hashes.supported, Hashes.get_digestbyname. run_monad.
    destruct (is_ascii (hash_name hashobject)) eqn:Hascii.
    - rewrite (encode_ascii_ok _ Hascii). simpl. intros [= <-].
      split; [reflexivity |]. rewrite Hstable, negb_involutive.
      apply Z.eqb_sym.
    - rewrite (encode_ascii_raises _ Hascii). discriminate. }
  split.
  - intros Hfalse. destruct (Hsup false Hfalse) as [Henc Hnull].
    rewrite create_ctx_eq, Hnew, Henc. simpl. rewrite Hnull. simpl.
    unfold after. simpl. rewrite <- app_assoc. reflexivity.
  - intros Htrue. destruct (Hsup true Htrue) as [Henc Hnull].
    exists (EVP_get_digestbyname lib w1
              (list_byte_of_string (hash_name hashobject))).
    exists (snd (Hashes.create_ctx lib hashobject s)). split.
    + intros Heq. rewrite Heq in Hnull. discriminate.
    + rewrite create_ctx_eq, Hnew, Henc. simpl. rewrite Hnull. simpl.
      destruct (EVP_DigestInit_ex lib w1 ctx _ NULL) as [res w2]. simpl.
      destruct (res =? 0); reflexivity.
Qed.

(** ["md5"], unknown to the sample library, and ["sha1"]. *)
Lemma digest_create_follows_support_witness :
  fst (Hashes.create_ctx Sample.lib {| hash_name := "md5" |} Sample.started)
  = Raise AssertionError /\
  exists evp_md s',
    Hashes.create_ctx Sample.lib Sample.sha1 Sample.started
    = (if fst (EVP_DigestInit_ex Sample.lib (snd (Sample.alloc Sample.boot))
                 16 evp_md NULL) =? 0
       then Raise AssertionError else Ok 16, s').
Proof.
  split.
  - destruct (digest_create_follows_support Sample.lib Sample.started
                {| hash_name := "md5" |} 16 (snd (Sample.alloc Sample.boot))
                eq_refl (fun _ => eq_refl)) as [Hfalse _].
    rewrite (Hfalse eq_refl). reflexivity.
  - destruct (digest_create_follows_support Sample.lib Sample.started
                Sample.sha1 16 (snd (Sample.alloc Sample.boot))
                eq_refl (fun _ => eq_refl)) as [_ Htrue].
    destruct (Htrue eq_refl) as (evp_md & s' & _ & Hrun).
    exists evp_md, s'. exact Hrun.
Defined.

(** X16.  The failure paths of [Hashes.finalize_ctx]: a negative
    [digest_size] raises [ValueError] before the library is called, so
    the context is untouched; a failure of the final call raises
    [AssertionError] and [EVP_MD_CTX_cleanup] is never called. *)
Theorem digest_finalize_failure_paths {W : Type} (lib : Lib W) (s : State W)
    (ctx : ptr) (digest_size : Z) :
  (digest_size < 0 ->
   Hashes.finalize_ctx lib ctx digest_size s
   = (Raise ValueError,
      after s (world s) [Call.ffi_new_uchar_array digest_size])) /\
  (0 <= digest_size ->
   forall written w1,
     EVP_DigestFinal_ex lib (world s) ctx NULL = (0, written, w1) ->
     Hashes.finalize_ctx lib ctx digest_size s
     = (Raise AssertionError,
        after s w1 [Call.ffi_new_uchar_array digest_size;
                    Call.DigestFinal_ex ctx NULL])).
Proof.
  split.
  - intros Hneg. rewrite finalize_ctx_eq. cbv zeta.
    destruct (Z.ltb_spec digest_size 0) as [_ |]; [reflexivity | lia].
  - intros Hpos written w1 Hfinal. rewrite finalize_ctx_eq. cbv zeta.
    destruct (Z.ltb_spec digest_size 0) as [| _]; [lia |].
    rewrite Hfinal. simpl. unfold after. simpl.
    rewrite <- app_assoc. reflexivity.
Qed.

(** Asking the sample library for minus one byte. *)
Lemma digest_finalize_failure_paths_witness :
  fst (Hashes.finalize_ctx Sample.lib 16 (-1) Sample.hashing) = Raise ValueError /\
  world (snd (Hashes.finalize_ctx Sample.lib 16 (-1) Sample.hashing))
  = world Sample.hashing.
Proof.
  destruct (digest_finalize_failure_paths Sample.lib Sample.hashing 16 (-1))
    as [Hneg _].
  rewrite (Hneg ltac:(reflexivity)). split; reflexivity.
Defined.

(** X17.  [Hashes.update_ctx] and [Hashes.copy_ctx] check every status:
    [update_ctx] makes one update call with the chunk and its length,
    an empty chunk included, and raises [AssertionError] exactly when it
    returns 0; [copy_ctx] copies from the given context into a newly
    allocated one, which it returns exactly when the copy call does not
    return 0, and it calls nothing on the original besides that copy. *)
Theorem digest_update_and_copy_check_status {W : Type} (lib : Lib W)
    (s : State W) (ctx : ptr) (data : bytes) :
  (forall res w1,
     EVP_DigestUpdate lib (world s) ctx data (len data) = (res, w1) ->
     Hashes.update_ctx lib ctx data s
     = (if res =? 0 then Raise AssertionError else Ok tt,
        after s w1 [Call.DigestUpdate ctx data (len data)])) /\
  (forall copied_ctx w1 res w2,
     EVP_MD_CTX_create lib (world s) = (copied_ctx, w1) ->
     EVP_MD_CTX_copy_ex lib w1 copied_ctx ctx = (res, w2) ->
     Hashes.copy_ctx lib ctx s
     = (if res =? 0 then Raise AssertionError else Ok copied_ctx,
        after s w2 [Call.MD_CTX_create;
                    Call.ffi_gc copied_ctx EVP_MD_CTX_destroy;
                    Call.MD_CTX_copy_ex copied_ctx ctx])).
Proof.
  split.
  - intros res w1 Hupd. unfold Hashes.update_ctx. run_monad.
    rewrite Hupd. simpl. destruct (res =? 0); reflexivity.
  - intros copied_ctx w1 res w2 Hnew Hcopy.
    unfold Hashes.copy_ctx, ffi_gc, after. run_monad.
    rewrite Hnew. simpl. rewrite Hcopy. simpl.
    rewrite <- !app_assoc. simpl.
    destruct (res =? 0); reflexivity.
Qed.

(** An empty chunk and a copy on the sample library, and on the library
    whose calls fail. *)
Lemma digest_update_and_copy_check_status_witness :
  fst (Hashes.update_ctx Sample.lib 16 [] Sample.hashing) = Ok tt /\
  fst (Hashes.copy_ctx Sample.lib 16 Sample.hashing) = Ok 17 /\
  fst (Hashes.copy_ctx Sample.broken 16 Sample.hashing) = Raise AssertionError.
Proof.
  destruct (digest_update_and_copy_check_status Sample.lib Sample.hashing 16 [])
    as [Hupd Hcopy].
  destruct (digest_update_and_copy_check_status Sample.broken Sample.hashing
              16 []) as [_ Hbroken].
  rewrite (Hupd 1 (world Sample.hashing) eq_refl).
  rewrite (Hcopy 17 (snd (Sample.alloc (world Sample.hashing))) 1
             (snd (Sample.alloc (world Sample.hashing))) eq_refl eq_refl).
  rewrite (Hbroken 17 (snd (Sample.alloc (world Sample.hashing))) 0
             (snd (Sample.alloc (world Sample.hashing))) eq_refl eq_refl).
  repeat split; reflexivity.
Defined.

(** ** [Backend.__init__] and [openssl_version_text] *)

Lemma load_all (import : string -> option Backend.Binding)
    (names : list string) (bs : list Backend.Binding) (acc : Backend.Loading) :
  Forall2 (fun name b =>
             import ("cryptography.bindings.openssl." +:+ name) = Some b)
          names bs ->
  Backend.load import names acc
  = inl {| Backend.steps :=
             Backend.steps acc ++ map (fun b => Backend.cdef (Backend.TYPES b)) bs;
           Backend.includes := Backend.includes acc ++ map Backend.INCLUDES bs;
           Backend.functions := Backend.functions acc ++ map Backend.FUNCTIONS bs;
           Backend.macros := Backend.macros acc ++ map Backend.MACROS bs |}.
Proof.
  intros Hall. revert acc.
  induction Hall as [| name b names bs Hname _ IH]; intros acc; simpl.
  - rewrite !app_nil_r. destruct acc; reflexivity.
  - rewrite Hname, IH. simpl. rewrite <- !app_assoc. reflexivity.
Qed.

Lemma load_stops (import : string -> option Backend.Binding)
    (pre post : list string) (name : string) (bs : list Backend.Binding)
    (acc : Backend.Loading) :
  Forall2 (fun name b =>
             import ("cryptography.bindings.openssl." +:+ name) = Some b)
          pre bs ->
  import ("cryptography.bindings.openssl." +:+ name) = None ->
  Backend.load import (pre ++ name :: post) acc
  = inr (name,
         {| Backend.steps :=
              Backend.steps acc ++ map (fun b => Backend.cdef (Backend.TYPES b)) bs;
            Backend.includes := Backend.includes acc ++ map Backend.INCLUDES bs;
            Backend.functions := Backend.functions acc ++ map Backend.FUNCTIONS bs;
            Backend.macros := Backend.macros acc ++ map Backend.MACROS bs |}).
Proof.
  intros Hall Hnone. revert acc.
  induction Hall as [| n b names bs Hn _ IH]; intros acc; simpl.
  - rewrite Hnone, !app_nil_r. destruct acc; reflexivity.
  - rewrite Hn, IH. simpl. rewrite <- !app_assoc. reflexivity.
Qed.

(** X18.  When all twenty-two binding modules import, [Backend.__init__]
    declares to cffi the types of every module, in the order of
    [_modules], before the functions of any, and all functions before
    the macros of any; the source it then has verified is the includes
    followed by the functions, one per line, without the macros; the two
    OpenSSL initialisers come after that, and the cipher registry it ends
    with is the default one. *)
Theorem backend_init_declares_types_first {W : Type}
    (import : string -> option Backend.Binding) (w : W)
    (bs : list Backend.Binding) :
  Forall2 (fun name b =>
             import ("cryptography.bindings.openssl." +:+ name) = Some b)
          Backend._modules bs ->
  Backend.__init__ import w
  = Backend.Ready
      (map (fun b => Backend.cdef (Backend.TYPES b)) bs ++
       map (fun b => Backend.cdef (Backend.FUNCTIONS b)) bs ++
       map (fun b => Backend.cdef (Backend.MACROS b)) bs ++
       [Backend.verify
          (Backend.join (String "010"%char EmptyString)
             (map Backend.INCLUDES bs ++ map Backend.FUNCTIONS bs))
          ["crypto"; "ssl"];
        Backend.OpenSSL_add_all_algorithms;
        Backend.SSL_load_error_strings])
      (Ok tt,
       {| _cipher_registry := list_to_map default_registrations;
          world := w; calls := [] |}).
Proof.
  intros Hall. unfold Backend.__init__.
  rewrite (load_all import _ bs _ Hall). cbn [Backend.steps Backend.includes
    Backend.functions Backend.macros app].
  rewrite Ciphers_init_eq, !map_map, <- !app_assoc. reflexivity.
Qed.

(** With the sample import: sixty-six declarations, then the three calls
    on the library. *)
Lemma backend_init_declares_types_first_witness :
  exists done ciphers,
    Backend.__init__ sample_import Sample.boot = Backend.Ready done ciphers /\
    length done = 69%nat /\
    done !! 0%nat = Some (Backend.cdef "T cryptography.bindings.openssl.asn1") /\
    done !! 22%nat = Some (Backend.cdef "F cryptography.bindings.openssl.asn1").
Proof.
  eexists. eexists. split.
  - apply (backend_init_declares_types_first sample_import Sample.boot
             (omap (fun name =>
                      sample_import ("cryptography.bindings.openssl." +:+ name))
                   Backend._modules)).
    vm_compute. repeat constructor.
  - vm_compute. repeat split; reflexivity.
Defined.

(** X19.  When a binding module cannot be imported, [Backend.__init__]
    ends with [ImportError] for the first such module; by then it has
    declared the types of the modules before it and nothing else: no
    function or macro, no verification, no cipher registry. *)
Theorem backend_init_import_error {W : Type}
    (import : string -> option Backend.Binding) (w : W)
    (pre post : list string) (name : string) (bs : list Backend.Binding) :
  Backend._modules = pre ++ name :: post ->
  Forall2 (fun name b =>
             import ("cryptography.bindings.openssl." +:+ name) = Some b)
          pre bs ->
  import ("cryptography.bindings.openssl." +:+ name) = None ->
  Backend.__init__ import w
  = Backend.ImportError name
      (map (fun b => Backend.cdef (Backend.TYPES b)) bs).
Proof.
  intros Hsplit Hall Hnone. unfold Backend.__init__.
  rewrite Hsplit, (load_stops import pre post name bs _ Hall Hnone).
  reflexivity.
Qed.

(** Without the [evp] binding: the nine modules before it have had their
    types declared. *)
Lemma backend_init_import_error_witness :
  exists done,
    Backend.__init__ import_without_evp Sample.boot
    = Backend.ImportError "evp" done /\
    length done = 9%nat.
Proof.
  eexists. split.
  - apply (backend_init_import_error import_without_evp Sample.boot
             (take 9 Backend._modules) (drop 10 Backend._modules) "evp"
             (omap (fun name =>
                      sample_import ("cryptography.bindings.openssl." +:+ name))
                   (take 9 Backend._modules))).
    + reflexivity.
    + vm_compute. repeat constructor.
    + reflexivity.
  - reflexivity.
Defined.

Lemma byte_of_ascii_nul (c : ascii) :
  Byte.eqb (byte_of_ascii c) x00 = (N_of_ascii c =? 0)%N.
Proof. destruct c as [[] [] [] [] [] [] [] []]; vm_compute; reflexivity. Qed.

Lemma to_N_byte_of_ascii (c : ascii) : Byte.to_N (byte_of_ascii c) = N_of_ascii c.
Proof. destruct c as [[] [] [] [] [] [] [] []]; vm_compute; reflexivity. Qed.

(** X20.  [openssl_version_text] returns exactly the text in front of the
    first NUL byte of the constant, for any ASCII text without NUL, and
    whatever follows that byte; a byte outside ASCII in front of the
    first NUL makes the decoding fail. *)
Theorem openssl_version_text_reads_to_nul (text : string) (tail : bytes) :
  no_nul text = true ->
  (is_ascii text = true ->
   Backend.openssl_version_text (list_byte_of_string text ++ x00 :: tail)
   = Some text) /\
  (is_ascii text = false ->
   Backend.openssl_version_text (list_byte_of_string text ++ x00 :: tail)
   = None).
Proof.
  unfold Backend.openssl_version_text.
  induction text as [| c r IH]; intros Hnul.
  - split; [reflexivity | discriminate].
  - simpl in Hnul. apply andb_true_iff in Hnul as [Hc Hr].
    destruct (IH Hr) as [IHok IHbad].
    change (list_byte_of_string (String c r))
      with (byte_of_ascii c :: list_byte_of_string r).
    simpl. rewrite byte_of_ascii_nul.
    apply negb_true_iff in Hc. rewrite Hc. simpl.
    rewrite to_N_byte_of_ascii, ascii_of_byte_of_ascii.
    destruct (N_of_ascii c <? 128)%N; simpl.
    + split.
      * intros Hascii. rewrite (IHok Hascii). reflexivity.
      * intros Hascii. rewrite (IHbad Hascii). reflexivity.
    + split; [discriminate | reflexivity].
Qed.

(** The example of the docstring, followed by a NUL and stray bytes. *)
Lemma openssl_version_text_reads_to_nul_witness :
  Backend.openssl_version_text
    (list_byte_of_string "OpenSSL 1.0.1e 11 Feb 2013" ++ [x00; xff; x41])
  = Some "OpenSSL 1.0.1e 11 Feb 2013".
Proof.
  destruct (openssl_version_text_reads_to_nul "OpenSSL 1.0.1e 11 Feb 2013"
              [xff; x41] eq_refl) as [Hok _].
  apply Hok. reflexivity.
Defined.

(** ** [open_vector_file] *)

Lemma endswith_sep_app (a b : string) :
  b <> EmptyString ->
  vectors.endswith_sep (a +:+ b) = vectors.endswith_sep b.
Proof.
  intros Hb. induction a as [| c a IH]; [reflexivity |].
  change (String c a +:+ b) with (String c (a +:+ b)).
  simpl. rewrite IH.
  destruct (a +:+ b) eqn:Hab; [| reflexivity].
  destruct a; simpl in Hab; [contradiction | discriminate].
Qed.

Lemma os_path_join_plain (base : string) (args : list string) :
  base <> EmptyString ->
  vectors.endswith_sep base = false ->
  Forall (fun b => plain_component b = true) args ->
  vectors.os_path_join base args
  = fold_left (fun path b => path +:+ "/" +:+ b) args base.
Proof.
  intros Hbase Hend Hall. revert base Hbase Hend.
  induction Hall as [| b args Hb _ IH]; intros base Hbase Hend;
    [reflexivity |].
  unfold plain_component in Hb.
  apply andb_true_iff in Hb as [Hb Hbend].
  apply andb_true_iff in Hb as [Hbne Hbrel].
  apply negb_true_iff in Hbne, Hbrel, Hbend.
  apply bool_decide_eq_false in Hbne.
  unfold vectors.os_path_join in *. simpl.
  assert (Hstep : vectors.join_step base b = base +:+ "/" +:+ b).
  { unfold vectors.join_step. rewrite Hbrel, Hend.
    rewrite bool_decide_eq_false_2 by exact Hbase. reflexivity. }
  rewrite Hstep. apply IH.
  - destruct base; [contradiction | discriminate].
  - rewrite endswith_sep_app.
    + change ("/" +:+ b) with (String "/"%char b).
      simpl. destruct b; [contradiction | exact Hbend].
    + discriminate.
Qed.

(** X21.  Given components that are non-empty, relative and free of a
    trailing separator, and such a base directory, [open_vector_file]
    opens the path made of the base and the components in order, one
    separator between neighbours. *)
Theorem open_vector_file_below_base {F : Type} (base : string)
    (open_r : string -> option F) (args : list string) :
  base <> EmptyString ->
  vectors.endswith_sep base = false ->
  Forall (fun b => plain_component b = true) args ->
  vectors.open_vector_file base open_r args
  = open_r (fold_left (fun path b => path +:+ "/" +:+ b) args base).
Proof.
  intros Hbase Hend Hall. unfold vectors.open_vector_file. simpl.
  rewrite os_path_join_plain by assumption. reflexivity.
Qed.

(** The known-answer file of the first AES test. *)
Lemma open_vector_file_below_base_witness :
  vectors.open_vector_file "/src/cryptography/vectors" Some
    ["AES"; "KAT"; "CBCGFSbox128.rsp"]
  = Some "/src/cryptography/vectors/AES/KAT/CBCGFSbox128.rsp".
Proof.
  rewrite (open_vector_file_below_base "/src/cryptography/vectors" Some
             ["AES"; "KAT"; "CBCGFSbox128.rsp"]).
  - reflexivity.
  - discriminate.
  - reflexivity.
  - repeat constructor.
Defined.

(** X22.  An absolute component makes [open_vector_file] leave the
    vectors directory: the base and every component before it are
    dropped, and the file opened is the one the absolute component and
    its successors name. *)
Theorem open_vector_file_absolute_component {F : Type} (base : string)
    (open_r : string -> option F) (pre post : list string) (b : string) :
  String.prefix "/" b = true ->
  vectors.open_vector_file base open_r (pre ++ b :: post)
  = vectors.open_vector_file b open_r post.
Proof.
  intros Habs. unfold vectors.open_vector_file, vectors.os_path_join. simpl.
  rewrite fold_left_app. simpl.
  unfold vectors.join_step at 2. rewrite Habs. reflexivity.
Qed.

(** A component naming a file outside the package. *)
Lemma open_vector_file_absolute_component_witness :
  vectors.open_vector_file "/src/cryptography/vectors" Some
    ["AES"; "/etc/passwd"]
  = Some "/etc/passwd".
Proof.
  exact (open_vector_file_absolute_component "/src/cryptography/vectors"
           Some ["AES"] [] "/etc/passwd" eq_refl).
Defined.
